(** * faststatus: the [resource] package (Status and Resource)

    A shallow embedding of [resource/status.go] and [resource/resource.go],
    together with a model of the parts of the Go standard library these two
    files call: [strconv.ParseUint] / [strconv.FormatUint], the [%X], [%016X],
    [%v] and [%s] verbs of [fmt.Sprintf], [time.Time] with its RFC 3339
    formatting and parsing, and [encoding/json] at the level of JSON values.

    Conventions.
    - Go's [string] is a sequence of bytes: Rocq's [string] (a list of 8-bit
      [ascii]).
    - [uint8] and [uint64] are [N]; where the width matters the bound is a
      hypothesis ([Id < 2^64]) and the wrap-around is written out.
    - a method with a pointer receiver takes the receiver's value and returns
      the new value next to the error.
    - [[]byte] holding JSON text is represented by the JSON value it denotes
      (type [json.value]); syntax errors of the text are therefore out of scope. *)

From Stdlib Require Import NArith ZArith Bool List String Ascii Lia ZifyBool.
Import ListNotations.
Local Open Scope string_scope.
Local Open Scope N_scope.

(** ** Errors *)

(** [strconv.ErrSyntax] and [strconv.ErrRange]. *)
Inductive numerr : Type :=
| ErrSyntax
| ErrRange.

(** The error values that can reach a caller of the package. *)
Inductive error : Type :=
| ErrOutOfRange                                   (* resource.ErrOutOfRange *)
| NumError (Func Num : string) (Err : numerr)     (* *strconv.NumError *)
| UnmarshalTypeError (Value Type_ : string)       (* *json.UnmarshalTypeError *)
| MarshalerError (Type_ : string) (Err : error)   (* *json.MarshalerError *)
| TimeParseError (Value : string)                 (* *time.ParseError *)
| TimeError (msg : string).                       (* errors.New in package time *)

(** [errors.Unwrap] chain: the innermost error. *)
Fixpoint cause (e : error) : error :=
  match e with
  | MarshalerError _ e' => cause e'
  | _ => e
  end.

(** The two error kinds of the specification. *)
Definition is_OutOfRange (e : error) : bool :=
  match cause e with ErrOutOfRange => true | _ => false end.

Definition is_ParseError (e : error) : bool :=
  match e with
  | NumError _ _ _ | UnmarshalTypeError _ _ | TimeParseError _ => true
  | _ => false
  end.

(** A value or an error, for functions returning [(T, error)] whose value is
    nil / unused when the error is not nil. *)
Inductive result (A : Type) : Type :=
| Ok (a : A)
| Err (e : error).
Arguments Ok {A} a.
Arguments Err {A} e.

(** ** Package strconv *)

Module strconv.

Definition maxUint64 : N := 2 ^ 64 - 1.

(** [digits = "0123456789abcdefghijklmnopqrstuvwxyz"] indexed by [d]. *)
Definition digit_lower (d : N) : ascii :=
  if d <? 10 then ascii_of_N (48 + d) else ascii_of_N (87 + d).

(** [udigits = "0123456789ABCDEFX"] of package fmt, indexed by [d]. *)
Definition digit_upper (d : N) : ascii :=
  if d <? 10 then ascii_of_N (48 + d) else ascii_of_N (55 + d).

(** The loop of [formatBits]: digits are produced from the least significant
    one and written right to left in a 65-byte buffer; [fuel] bounds the
    number of iterations by the size of that buffer. *)
Fixpoint formatBits (digit : N -> ascii) (fuel : nat) (u b : N) (acc : string)
  : string :=
  match fuel with
  | O => String (digit u) acc
  | S f =>
      if b <=? u
      then formatBits digit f (u / b) b (String (digit (u mod b)) acc)
      else String (digit u) acc
  end.

Definition FormatUint (i base : N) : string :=
  formatBits digit_lower 64 i base "".

(** [lower(c) = c | ('x' - 'X')]. *)
Definition lower (c : N) : N := N.lor c 32.

(** The digit value of a byte, as the [switch] of [ParseUint] computes it. *)
Definition digit_val (c : N) : option N :=
  if (48 <=? c) && (c <=? 57) then Some (c - 48)
  else if (97 <=? lower c) && (lower c <=? 122) then Some (lower c - 97 + 10)
  else None.

(** The [for _, c := range []byte(s)] loop of [ParseUint] (no underscores:
    they are only accepted with base 0). Returns the value Go returns and
    the error kind. *)
Fixpoint parse_loop (base cutoff maxVal : N) (s : string) (n : N)
  : N * option numerr :=
  match s with
  | EmptyString => (n, None)
  | String c rest =>
      match digit_val (N_of_ascii c) with
      | None => (0, Some ErrSyntax)
      | Some d =>
          if base <=? d then (0, Some ErrSyntax)
          else if cutoff <=? n then (maxVal, Some ErrRange)
          else
            let n' := (n * base) mod 2 ^ 64 in
            let n1 := (n' + d) mod 2 ^ 64 in
            if (n1 <? n') || (maxVal <? n1) then (maxVal, Some ErrRange)
            else parse_loop base cutoff maxVal rest n1
      end
  end.

(** [strconv.ParseUint(s, base, bitSize)] for [2 <= base <= 36] and
    [1 <= bitSize <= 64] (the package calls it with base 16 and Go's json
    decoder with base 10, both with bitSize 64). *)
Definition ParseUint (s : string) (base bitSize : N) : N * option error :=
  match s with
  | EmptyString => (0, Some (NumError "ParseUint" s ErrSyntax))
  | _ =>
      let cutoff := maxUint64 / base + 1 in
      let maxVal := 2 ^ bitSize - 1 in
      match parse_loop base cutoff maxVal s 0 with
      | (v, None) => (v, None)
      | (v, Some k) => (v, Some (NumError "ParseUint" s k))
      end
  end.

End strconv.

(** ** Package fmt: the verbs of [resourceFmtString] and of [MarshalJSON] *)

Module fmt.

(** [n] copies of [c] before [s]. *)
Fixpoint pad (n : nat) (c : ascii) (s : string) : string :=
  match n with
  | O => s
  | S n' => String c (pad n' c s)
  end.

(** Left padding with [c] up to [width] bytes. *)
Definition pad_left (c : ascii) (width : nat) (s : string) : string :=
  pad (width - String.length s) c s.

(** [%X] on a [uint64]: upper-case hexadecimal, no prefix, no padding. *)
Definition verb_X (u : N) : string :=
  strconv.formatBits strconv.digit_upper 64 u 16 "".

(** [%016X] on a [uint64]: as [%X], zero-padded to 16 digits. *)
Definition verb_016X (u : N) : string :=
  pad_left "0" 16 (verb_X u).

End fmt.

(** ** Package unicode/utf8, as used by the JSON encoder *)

Module utf8.

Definition in_range (c : ascii) (lo hi : N) : bool :=
  (lo <=? N_of_ascii c) && (N_of_ascii c <=? hi).

(** Continuation byte [10xxxxxx]. *)
Definition cont (c : ascii) : bool := in_range c 0x80 0xBF.

(** For a leading byte [b >= 0x80]: the length of the encoding and the range
    accepted for the second byte (the tables [first] and [acceptRanges]). *)
Definition first (b : N) : option (nat * N * N) :=
  if (0xC2 <=? b) && (b <=? 0xDF) then Some (2%nat, 0x80, 0xBF)
  else if b =? 0xE0 then Some (3%nat, 0xA0, 0xBF)
  else if b =? 0xED then Some (3%nat, 0x80, 0x9F)
  else if (0xE1 <=? b) && (b <=? 0xEF) then Some (3%nat, 0x80, 0xBF)
  else if b =? 0xF0 then Some (4%nat, 0x90, 0xBF)
  else if (0xF1 <=? b) && (b <=? 0xF3) then Some (4%nat, 0x80, 0xBF)
  else if b =? 0xF4 then Some (4%nat, 0x80, 0x8F)
  else None.

(** [DecodeRuneInString] on a string starting with the non-ASCII byte [b]
    followed by [rest]: [Some k] when a valid encoding is found, with [k] the
    number of bytes that follow [b] in it; [None] when Go returns
    [(RuneError, 1)]. *)
Definition rune_tail (b : N) (rest : string) : option nat :=
  match first b with
  | None => None
  | Some (sz, lo, hi) =>
      match rest with
      | String c1 r1 =>
          if in_range c1 lo hi then
            match sz with
            | 2%nat => Some 1%nat
            | 3%nat =>
                match r1 with
                | String c2 _ => if cont c2 then Some 2%nat else None
                | EmptyString => None
                end
            | _ =>
                match r1 with
                | String c2 (String c3 _) =>
                    if cont c2 && cont c3 then Some 3%nat else None
                | _ => None
                end
            end
          else None
      | EmptyString => None
      end
  end.

(** [utf8.ValidString], started with [pending] bytes of an encoding that has
    already been checked still to skip. *)
Fixpoint valid_from (pending : nat) (s : string) : bool :=
  match s with
  | EmptyString => true
  | String c rest =>
      match pending with
      | S k => valid_from k rest
      | O =>
          if N_of_ascii c <? 0x80 then valid_from O rest
          else match rune_tail (N_of_ascii c) rest with
               | Some k => valid_from k rest
               | None => false
               end
      end
  end.

Definition ValidString (s : string) : bool := valid_from 0 s.

(** The UTF-8 encoding of U+FFFD. *)
Definition RuneError : string :=
  String (ascii_of_N 0xEF) (String (ascii_of_N 0xBF) (String (ascii_of_N 0xBD) "")).

(** The coercion to valid UTF-8 the JSON encoder applies to a string: every
    byte at which [DecodeRuneInString] returns [(RuneError, 1)] is replaced
    by U+FFFD, everything else is kept. *)
Fixpoint coerce_from (pending : nat) (s : string) : string :=
  match s with
  | EmptyString => EmptyString
  | String c rest =>
      match pending with
      | S k => String c (coerce_from k rest)
      | O =>
          if N_of_ascii c <? 0x80 then String c (coerce_from O rest)
          else match rune_tail (N_of_ascii c) rest with
               | Some k => String c (coerce_from k rest)
               | None => RuneError ++ coerce_from O rest
               end
      end
  end.

Definition coerce (s : string) : string := coerce_from 0 s.

End utf8.

(** ** Package encoding/json, on JSON values

    A JSON text is represented by the value it denotes. A string carries, next
    to its decoded content, whether its spelling uses an escape sequence:
    [time.Time.UnmarshalJSON] reads the raw bytes between the quotes, every
    other decoder reads the decoded content. A number carries its literal. *)

Module json.

#[local] Unset Elimination Schemes.
Inductive value : Type :=
| JNull
| JBool (b : bool)
| JNumber (lit : string)
| JString (escaped : bool) (s : string)
| JArray (elems : list value)
| JObject (members : list (string * value)).
#[local] Set Elimination Schemes.

(** The name of the kind of a value, as [UnmarshalTypeError.Value] has it. *)
Definition kind (v : value) : string :=
  match v with
  | JNull => "null"
  | JBool _ => "bool"
  | JNumber _ => "number"
  | JString _ _ => "string"
  | JArray _ => "array"
  | JObject _ => "object"
  end.

(** Does the encoder write a byte of [s] as an escape sequence: control
    characters, the quote, the backslash, [<], [>], [&], U+2028 and U+2029. *)
Fixpoint has_escaped_byte (s : string) : bool :=
  match s with
  | EmptyString => false
  | String c r =>
      let b := N_of_ascii c in
      (b <? 32) || (b =? 34) || (b =? 38) || (b =? 60) || (b =? 62) || (b =? 92)
      || match r with
         | String c1 (String c2 _) =>
             (b =? 0xE2) && (N_of_ascii c1 =? 0x80)
             && ((N_of_ascii c2 =? 0xA8) || (N_of_ascii c2 =? 0xA9))
         | _ => false
         end
      || has_escaped_byte r
  end.

(** Encoding of a Go string: coerced to valid UTF-8, invalid bytes being
    replaced by U+FFFD. *)
Definition Marshal_string (s : string) : value :=
  JString (has_escaped_byte s || negb (utf8.ValidString s)) (utf8.coerce s).

(** Encoding of an unsigned integer: its decimal literal. *)
Definition Marshal_uint (n : N) : value :=
  JNumber (strconv.FormatUint n 10).

(** [json.Unmarshal(raw, t)] for [t *uint8] pointing to the value [t]:
    [null] is a no-op; a number is read with [ParseUint(lit, 10, 64)] and
    must not overflow 8 bits; anything else is a type error. *)
Definition Unmarshal_uint8 (t : N) (raw : value) : N * option error :=
  match raw with
  | JNull => (t, None)
  | JNumber lit =>
      match strconv.ParseUint lit 10 64 with
      | (n, None) =>
          if n <? 2 ^ 8 then (n, None)
          else (t, Some (UnmarshalTypeError ("number " ++ lit) "uint8"))
      | (_, Some _) => (t, Some (UnmarshalTypeError ("number " ++ lit) "uint8"))
      end
  | v => (t, Some (UnmarshalTypeError (kind v) "uint8"))
  end.

(** [foldName]: the canonical form under which an object key is compared
    with the field names of a struct. ASCII letters are upper-cased and the
    two non-ASCII runes whose case folding reaches an ASCII letter are
    mapped to it: U+017F (long s, bytes C5 BF) to [S] and U+212A (Kelvin
    sign, bytes E2 84 AA) to [K]. Other bytes are kept. *)
Fixpoint foldName (s : string) : string :=
  match s with
  | EmptyString => EmptyString
  | String c r =>
      let b := N_of_ascii c in
      if (97 <=? b) && (b <=? 122) then String (ascii_of_N (b - 32)) (foldName r)
      else
        match r with
        | String c1 r1 =>
            if (b =? 0xC5) && (N_of_ascii c1 =? 0xBF) then String "S" (foldName r1)
            else
              match r1 with
              | String c2 r2 =>
                  if (b =? 0xE2) && (N_of_ascii c1 =? 0x84) && (N_of_ascii c2 =? 0xAA)
                  then String "K" (foldName r2)
                  else String c (foldName r)
              | EmptyString => String c (foldName r)
              end
        | EmptyString => String c EmptyString
        end
  end.

End json.

(** ** Package time: instants in UTC

    A [Time] is an instant, counted in nanoseconds from the zero Time
    (January 1, year 1, 00:00:00 UTC). The Location is not modelled: every
    Time is presented in UTC, which is the data model of the specification
    and what parsing a timestamp ending in [Z] yields. In Go a Time read from
    a timestamp with another offset keeps that offset and is printed with it;
    such Times are outside the model, and the statements on stored data are
    made for timestamps in UTC. *)

Module time.

Local Open Scope Z_scope.

Record Time : Type := mkTime { abs_ns : Z }.

(** The zero value [time.Time{}]. *)
Definition zero : Time := mkTime 0.

Definition nsPerSecond : Z := 1000000000.
Definition secondsPerDay : Z := 86400.

Definition abs_sec (t : Time) : Z := abs_ns t / nsPerSecond.
Definition Nanosecond (t : Time) : Z := abs_ns t mod nsPerSecond.
Definition abs_days (t : Time) : Z := abs_sec t / secondsPerDay.
Definition sec_of_day (t : Time) : Z := abs_sec t mod secondsPerDay.
Definition Hour (t : Time) : Z := sec_of_day t / 3600.
Definition Minute (t : Time) : Z := (sec_of_day t mod 3600) / 60.
Definition Second (t : Time) : Z := sec_of_day t mod 60.

(** Proleptic Gregorian date of the day [n] days after 0001-01-01, computed
    on the calendar shifted to start on March 1 of year 0 (306 days
    earlier), in cycles of 400 years (146097 days). *)
Definition civil (n : Z) : Z * Z * Z :=
  let z := n + 306 in
  let era := z / 146097 in
  let doe := z mod 146097 in
  let yoe := (doe - doe / 1460 + doe / 36524 - doe / 146096) / 365 in
  let doy := doe - (365 * yoe + yoe / 4 - yoe / 100) in
  let mp := (5 * doy + 2) / 153 in
  let d := doy - (153 * mp + 2) / 5 + 1 in
  let m := if mp <? 10 then mp + 3 else mp - 9 in
  let y := yoe + era * 400 + (if m <=? 2 then 1 else 0) in
  (y, m, d).

(** The inverse: days from 0001-01-01 to the given date. *)
Definition days_from_civil (y m d : Z) : Z :=
  let y' := if m <=? 2 then y - 1 else y in
  let era := y' / 400 in
  let yoe := y' mod 400 in
  let mp := if 2 <? m then m - 3 else m + 9 in
  let doy := (153 * mp + 2) / 5 + d - 1 in
  let doe := yoe * 365 + yoe / 4 - yoe / 100 + doy in
  era * 146097 + doe - 306.

Definition Year (t : Time) : Z := fst (fst (civil (abs_days t))).
Definition Month (t : Time) : Z := snd (fst (civil (abs_days t))).
Definition Day (t : Time) : Z := snd (civil (abs_days t)).

Definition isLeap (year : Z) : bool :=
  (year mod 4 =? 0) && (negb (year mod 100 =? 0) || (year mod 400 =? 0)).

Definition daysIn (m year : Z) : Z :=
  if m =? 2 then (if isLeap year then 29 else 28)
  else if (m =? 4) || (m =? 6) || (m =? 9) || (m =? 11) then 30
  else 31.

(** [time.Date(year, month, day, hour, min, sec, nsec, time.UTC)] for
    arguments in their normal ranges. *)
Definition Date (year month day hour min sec nsec : Z) : Time :=
  mkTime (((days_from_civil year month day * secondsPerDay
            + hour * 3600 + min * 60 + sec) * nsPerSecond) + nsec).

(** [appendInt(b, x, width)]: the decimal form of [x], zero-padded to
    [width] digits, after the sign. Go assembles the digits in a buffer of
    20 bytes, enough for its 64-bit [int]; the integers of the model are
    unbounded, and the loop is given one iteration per bit of [x]. *)
Definition appendInt (x : Z) (width : nat) : string :=
  let u := Z.abs_N x in
  ((if Z.ltb x 0 then "-" else "")
   ++ fmt.pad_left "0" width
        (strconv.formatBits strconv.digit_lower (N.to_nat (N.size u)) u 10 ""))%string.

(** Removal of the trailing zeros of a digit string. *)
Fixpoint trim_zeros (s : string) : string :=
  match s with
  | EmptyString => EmptyString
  | String c r =>
      match trim_zeros r with
      | EmptyString => if Ascii.eqb c "0" then EmptyString else String c EmptyString
      | r' => String c r'
      end
  end.

(** [appendNano] for the layout element [.999999999]: nothing when the
    nanosecond is zero, else a period and nine digits without their trailing
    zeros. *)
Definition appendNano (nanosec : Z) : string :=
  if nanosec =? 0 then EmptyString
  else String "." (trim_zeros (appendInt nanosec 9)).

(** The part [2006-01-02T15:04:05] common to both layouts. *)
Definition format_seconds (t : Time) : string :=
  (appendInt (Year t) 4 ++ "-" ++ appendInt (Month t) 2 ++ "-"
   ++ appendInt (Day t) 2 ++ "T" ++ appendInt (Hour t) 2 ++ ":"
   ++ appendInt (Minute t) 2 ++ ":" ++ appendInt (Second t) 2)%string.

(** [t.Format(time.RFC3339)], layout [2006-01-02T15:04:05Z07:00], in UTC. *)
Definition Format_RFC3339 (t : Time) : string :=
  (format_seconds t ++ "Z")%string.

(** [t.Format(time.RFC3339Nano)], layout
    [2006-01-02T15:04:05.999999999Z07:00], in UTC. *)
Definition Format_RFC3339Nano (t : Time) : string :=
  (format_seconds t ++ appendNano (Nanosecond t) ++ "Z")%string.

(** [Time.MarshalJSON]: the RFC 3339 text with nanoseconds, as a JSON
    string; an error when the year does not have four digits. *)
Definition MarshalJSON (t : Time) : result json.value :=
  if (Year t <? 0) || (10000 <=? Year t)
  then Err (TimeError "Time.MarshalJSON: year outside of range [0,9999]")
  else Ok (json.JString false (Format_RFC3339Nano t)).

(** *** A reader of RFC 3339 timestamps

    What [Time.UnmarshalJSON] accepts beyond the timestamps that
    [MarshalJSON] writes differs between Go releases; the decoder of
    [Resource] below therefore takes it as a parameter. This reader is the
    reference instance: the strict RFC 3339 profile, folded to UTC. *)

Definition digit (c : ascii) : option Z :=
  let b := Z.of_N (N_of_ascii c) in
  if (48 <=? b) && (b <=? 57) then Some (b - 48) else None.

(** Exactly [w] digits. *)
Fixpoint getnum (w : nat) (s : string) (acc : Z) : option (Z * string) :=
  match w with
  | O => Some (acc, s)
  | S w' =>
      match s with
      | String c r =>
          match digit c with
          | Some d => getnum w' r (acc * 10 + d)
          | None => None
          end
      | EmptyString => None
      end
  end.

Definition expect (c : ascii) (s : string) : option string :=
  match s with
  | String c' r => if Ascii.eqb c c' then Some r else None
  | EmptyString => None
  end.

(** The digits of a fraction of a second: the first [k] count, scaled to
    nanoseconds; further digits are read and dropped. *)
Fixpoint frac (k : nat) (s : string) (acc : Z) : Z * string :=
  match s with
  | String c r =>
      match digit c with
      | Some d =>
          match k with
          | S k' => frac k' r (acc * 10 + d)
          | O => frac O r acc
          end
      | None => (acc * 10 ^ Z.of_nat k, s)
      end
  | EmptyString => (acc * 10 ^ Z.of_nat k, s)
  end.

Definition parse_nanos (s : string) : option (Z * string) :=
  match s with
  | String "." (String c r) =>
      match digit c with
      | Some _ => Some (frac 9 (String c r) 0)
      | None => None
      end
  | _ => Some (0, s)
  end.

(** The zone: [Z], or a sign, two digits, a colon and two digits; seconds
    east of UTC. Nothing may follow. *)
Definition parse_zone (s : string) : option Z :=
  match s with
  | String "Z" EmptyString => Some 0
  | String sign r =>
      if Ascii.eqb sign "+" || Ascii.eqb sign "-" then
        match getnum 2 r 0 with
        | Some (hh, r1) =>
            match expect ":" r1 with
            | Some r2 =>
                match getnum 2 r2 0 with
                | Some (mm, EmptyString) =>
                    if (hh <? 24) && (mm <? 60)
                    then Some ((if Ascii.eqb sign "-" then -1 else 1)
                               * (hh * 3600 + mm * 60))
                    else None
                | _ => None
                end
            | None => None
            end
        | None => None
        end
      else None
  | EmptyString => None
  end.

Notation "'let?' x ':=' a 'in' b" :=
  (match a with Some x => b | None => None end)
    (at level 10, x pattern, a at level 100, b at level 200, only parsing).

Definition parseRFC3339 (s : string) : option Time :=
  let? (year, s) := getnum 4 s 0 in
  let? s := expect "-" s in
  let? (month, s) := getnum 2 s 0 in
  let? s := expect "-" s in
  let? (day, s) := getnum 2 s 0 in
  let? s := expect "T" s in
  let? (hour, s) := getnum 2 s 0 in
  let? s := expect ":" s in
  let? (min, s) := getnum 2 s 0 in
  let? s := expect ":" s in
  let? (sec, s) := getnum 2 s 0 in
  let? (nsec, s) := parse_nanos s in
  let? offset := parse_zone s in
  if (1 <=? month) && (month <=? 12) && (1 <=? day) && (day <=? daysIn month year)
     && (hour <? 24) && (min <? 60) && (sec <? 60)
  then Some (mkTime ((days_from_civil year month day * secondsPerDay
                      + hour * 3600 + min * 60 + sec - offset) * nsPerSecond
                     + nsec))
  else None.

(** The reference instance of [Time.UnmarshalJSON]: [null] is a no-op,
    a string is read from its raw bytes, anything else is an error. *)
Definition UnmarshalJSON_RFC3339 (t : Time) (data : json.value)
  : Time * option error :=
  match data with
  | json.JNull => (t, None)
  | json.JString false s =>
      match parseRFC3339 s with
      | Some t' => (t', None)
      | None => (t, Some (TimeParseError s))
      end
  | json.JString true s => (t, Some (TimeParseError s))
  | _ => (t, Some (TimeError "Time.UnmarshalJSON: input is not a JSON string"))
  end.

End time.

(** ** resource/status.go *)

Module Status.

(** [type Status uint8]. *)
Definition t : Type := N.

Definition Free : t := 0.
Definition Busy : t := 1.
Definition Occupied : t := 2.

Definition inRange (s : t) : bool := s <=? Occupied.

Definition forceRange (s : t) : t :=
  if negb (inRange s) then Free else s.

Definition String (s : t) : string :=
  strconv.FormatUint (forceRange s) 10.

Definition Pretty (s : t) : string :=
  let v := forceRange s in
  if v =? Busy then "Busy"
  else if v =? Occupied then "Occupied"
  else if v =? Free then "Free"
  else "".

Definition MarshalJSON (s : t) : result json.value :=
  if negb (inRange s) then Err ErrOutOfRange
  else Ok (json.Marshal_uint s).

(** Pointer receiver: [s] is the value before the call, the first component
    of the result the value after it. *)
Definition UnmarshalJSON (s : t) (raw : json.value) : t * option error :=
  match json.Unmarshal_uint8 0 raw with
  | (_, Some err) => (s, Some err)
  | (t, None) =>
      let s := t in
      if negb (inRange s) then (Free, Some ErrOutOfRange)
      else (s, None)
  end.

End Status.

(** ** resource/resource.go *)

Module Resource.

Record t : Type := mk {
  Id : N;
  FriendlyName : string;
  Status : Status.t;
  Since : time.Time
}.

(** The zero value, what [new(Resource)] points to. *)
Definition zero : t := mk 0 "" Status.Free time.zero.

(** [fmt.Sprintf(resourceFmtString, since, status, id, friendlyName)] with
    [resourceFmtString = "%s %v %016X %s"]: [%v] on a [Status] calls its
    [String] method. *)
Definition Sprintf_resourceFmt (since : string) (status : Status.t) (id : N)
  (friendlyName : string) : string :=
  since ++ " " ++ Status.String status ++ " " ++ fmt.verb_016X id ++ " "
  ++ friendlyName.

Definition String (r : t) : string :=
  Sprintf_resourceFmt (time.Format_RFC3339 (Since r)) (Status r) (Id r)
    (FriendlyName r).

(** The anonymous struct of [MarshalJSON] and of [UnmarshalJSON]: the same
    four fields with [Id] a string. *)
Record tmpResource : Type := mkTmp {
  tmp_Id : string;
  tmp_FriendlyName : string;
  tmp_Status : Status.t;
  tmp_Since : time.Time
}.

(** [json.Marshal(tmpResource)]: the fields in order under their tags; a
    field whose type has a [MarshalJSON] method is encoded by it, and its
    error aborts the encoding, wrapped in a [MarshalerError]. *)
Definition json_Marshal (tmp : tmpResource) : result json.value :=
  match Status.MarshalJSON (tmp_Status tmp) with
  | Err e => Err (MarshalerError "resource.Status" e)
  | Ok status =>
      match time.MarshalJSON (tmp_Since tmp) with
      | Err e => Err (MarshalerError "time.Time" e)
      | Ok since =>
          Ok (json.JObject
                [("id", json.Marshal_string (tmp_Id tmp));
                 ("friendlyName", json.Marshal_string (tmp_FriendlyName tmp));
                 ("status", status);
                 ("since", since)])
      end
  end.

Definition MarshalJSON (r : t) : result json.value :=
  let tmpResource :=
    mkTmp (fmt.verb_X (Id r)) (FriendlyName r) (Status r) (Since r) in
  json_Marshal tmpResource.

(** The fields of the struct that [UnmarshalJSON] decodes into. The tag
    [json:",omitempty"] gives no name, so each is known by its Go name. *)
Inductive field : Type := FId | FFriendlyName | FStatus | FSince.

(** The field an object key designates: the one whose name has the same
    folded form. *)
Definition field_of_key (key : string) : option field :=
  let k := json.foldName key in
  if String.eqb k "ID" then Some FId
  else if String.eqb k "FRIENDLYNAME" then Some FFriendlyName
  else if String.eqb k "STATUS" then Some FStatus
  else if String.eqb k "SINCE" then Some FSince
  else None.

(** [d.saveError]: only the first error is kept. *)
Definition saveError (saved : option error) (e : error) : option error :=
  match saved with
  | Some _ => saved
  | None => Some e
  end.

(** Decoding into a field of kind string: a string is stored, [null] is a
    no-op, another value is a type error that is saved while decoding goes
    on. *)
Definition decode_string (old : string) (saved : option error) (v : json.value)
  : string * option error :=
  match v with
  | json.JString _ s => (s, saved)
  | json.JNull => (old, saved)
  | _ => (old, saveError saved (UnmarshalTypeError (json.kind v) "string"))
  end.

Section Decoder.

(** [time.Time]'s [UnmarshalJSON] (pointer receiver: value before, value
    after and error). *)
Variable time_UnmarshalJSON : time.Time -> json.value -> time.Time * option error.

(** One member of the object. A key that designates no field is skipped.
    The error of a field's own [UnmarshalJSON] aborts the decoding. *)
Definition decode_member (st : tmpResource * option error)
  (m : string * json.value) : result (tmpResource * option error) :=
  let (tmp, saved) := st in
  let (key, v) := m in
  match field_of_key key with
  | None => Ok st
  | Some FId =>
      let (s, saved') := decode_string (tmp_Id tmp) saved v in
      Ok (mkTmp s (tmp_FriendlyName tmp) (tmp_Status tmp) (tmp_Since tmp), saved')
  | Some FFriendlyName =>
      let (s, saved') := decode_string (tmp_FriendlyName tmp) saved v in
      Ok (mkTmp (tmp_Id tmp) s (tmp_Status tmp) (tmp_Since tmp), saved')
  | Some FStatus =>
      match Status.UnmarshalJSON (tmp_Status tmp) v with
      | (s, None) =>
          Ok (mkTmp (tmp_Id tmp) (tmp_FriendlyName tmp) s (tmp_Since tmp), saved)
      | (_, Some e) => Err e
      end
  | Some FSince =>
      match time_UnmarshalJSON (tmp_Since tmp) v with
      | (since, None) =>
          Ok (mkTmp (tmp_Id tmp) (tmp_FriendlyName tmp) (tmp_Status tmp) since, saved)
      | (_, Some e) => Err e
      end
  end.

Fixpoint decode_members (st : tmpResource * option error)
  (ms : list (string * json.value)) : result (tmpResource * option error) :=
  match ms with
  | [] => Ok st
  | m :: ms' =>
      match decode_member st m with
      | Ok st' => decode_members st' ms'
      | Err e => Err e
      end
  end.

(** [json.Unmarshal(raw, tmp)] with [tmp] freshly allocated: the decoded
    struct when the error is nil. *)
Definition json_Unmarshal (raw : json.value) : result tmpResource :=
  match raw with
  | json.JNull => Ok (mkTmp "" "" Status.Free time.zero)
  | json.JObject ms =>
      match decode_members (mkTmp "" "" Status.Free time.zero, None) ms with
      | Ok (tmp, None) => Ok tmp
      | Ok (_, Some e) => Err e
      | Err e => Err e
      end
  | v => Err (UnmarshalTypeError (json.kind v) "struct")
  end.

(** Pointer receiver: [r] is the Resource before the call, the first
    component of the result the Resource after it. *)
Definition UnmarshalJSON (r : t) (raw : json.value) : t * option error :=
  match json_Unmarshal raw with
  | Err err => (r, Some err)
  | Ok tmp =>
      let r := mk (Id r) (tmp_FriendlyName tmp) (tmp_Status tmp) (tmp_Since tmp) in
      let tmp_Id' :=
        if Nat.eqb (String.length (tmp_Id tmp)) 0 then "0" else tmp_Id tmp in
      match strconv.ParseUint tmp_Id' 16 64 with
      | (_, Some err) => (r, Some err)
      | (id, None) => (mk id (FriendlyName r) (Status r) (Since r), None)
      end
  end.

End Decoder.

End Resource.

(** ** Predicates on strings used in the statements *)

(** Every byte of [s] satisfies [P]. *)
Fixpoint all_bytes (P : ascii -> bool) (s : string) : bool :=
  match s with
  | EmptyString => true
  | String c r => P c && all_bytes P r
  end.

(** [0]..[9] or [A]..[F]. *)
Definition is_upper_hex (c : ascii) : bool :=
  let b := N_of_ascii c in
  ((48 <=? b) && (b <=? 57)) || ((65 <=? b) && (b <=? 70)).

(** An ASCII byte that is neither a line feed nor a carriage return. *)
Definition is_inline (c : ascii) : bool :=
  let b := N_of_ascii c in
  (b <? 128) && negb (b =? 10) && negb (b =? 13).

(** The first byte of a string, if any. *)
Definition head (s : string) : option ascii :=
  match s with
  | EmptyString => None
  | String c _ => Some c
  end.

(** The string does not start with a decimal digit. *)
Definition no_digit_head (rest : string) : Prop :=
  match rest with
  | String c _ => time.digit c = None
  | EmptyString => True
  end.

(** A hexadecimal digit in either case, the digits [ParseUint] accepts in
    base 16. *)
Definition is_hex (c : ascii) : bool :=
  let b := N_of_ascii c in
  ((48 <=? b) && (b <=? 57)) || ((65 <=? b) && (b <=? 70))
  || ((97 <=? b) && (b <=? 102)).

(** The literal of a JSON number is not read as an integer that fits
    [uint8]: [ParseUint(lit, 10, 64)] fails or yields 256 or more. *)
Definition not_uint8 (lit : string) : Prop :=
  match strconv.ParseUint lit 10 64 with
  | (n, None) => 2 ^ 8 <= n
  | (_, Some _) => True
  end.

(** The value of the first member of an object with exactly this key. *)
Fixpoint member (key : string) (ms : list (string * json.value)) : option json.value :=
  match ms with
  | [] => None
  | (k, v) :: ms' => if String.eqb k key then Some v else member key ms'
  end.

Definition field_eqb (f g : Resource.field) : bool :=
  match f, g with
  | Resource.FId, Resource.FId
  | Resource.FFriendlyName, Resource.FFriendlyName
  | Resource.FStatus, Resource.FStatus
  | Resource.FSince, Resource.FSince => true
  | _, _ => false
  end.

(** Some member of the object designates the field [f]. *)
Definition present (f : Resource.field) (raw : json.value) : bool :=
  match raw with
  | json.JObject ms =>
      existsb (fun m => match Resource.field_of_key (fst m) with
                        | Some g => field_eqb f g
                        | None => false
                        end) ms
  | _ => false
  end.

(** The Resource of the examples of the specification. *)
Definition example_resource : Resource.t :=
  Resource.mk 0x0123456789ABCDEF "My Resource" Status.Busy
    (time.Date 2006 1 2 15 4 5 0).

(** The instant without its fraction of a second. *)
Definition to_second (t : time.Time) : time.Time :=
  time.mkTime (time.abs_sec t * time.nsPerSecond).

(** ** Package strings *)

Module strings.

(** [strings.Split(s, sep)] for a separator of one byte: the pieces of [s]
    between the occurrences of [sep], one more than there are occurrences
    (so [Split("", "/")] is the one empty string). *)
Fixpoint Split (s : string) (sep : ascii) : list string :=
  match s with
  | EmptyString => [EmptyString]
  | String c r =>
      if Ascii.eqb c sep then EmptyString :: Split r sep
      else match Split r sep with
           | x :: xs => String c x :: xs
           | [] => [String c EmptyString]
           end
  end.

End strings.

(** ** server/current.go

    The handler is modelled by what it does to its [http.ResponseWriter]: the
    calls it makes on it, in order. The bucket "resources" of the database is
    a function from keys to stored bytes ([Get] returning nil is [None]); the
    database is assumed open and the bucket to exist. The goroutine of
    [getResource] only feeds the channel, in the order of the ids, and the
    handler reads it to its end or leaves at the first error: the model runs
    the two one after the other. *)

Module server.

(** The line feed that [Fprintln] and [Encoder.Encode] append. *)
Definition LF : string := String (ascii_of_N 10) EmptyString.

(** What the handlers read of a [*http.Request]: [r.Method], [r.URL.Path]
    and [r.Header["Accept"]]. *)
Record Request : Type := mkRequest {
  Method : string;
  Path : string;
  Accept : list string
}.

(** One [Write] on an [io.Writer]: text, or the text of a JSON value followed
    by a line feed (what [Encoder.Encode] writes). *)
Inductive chunk : Type :=
| Text (s : string)
| JSONLine (v : json.value).

(** The contents of a [bytes.Buffer]: what was written to it, in order. *)
Definition Buffer : Type := list chunk.

(** A call on the [http.ResponseWriter]: [http.Error(w, msg, code)], or a
    [Write] of the contents of a buffer. *)
Inductive call : Type :=
| Error (msg : string) (code : N)
| Write (content : Buffer).

Definition ResponseWriter : Type := list call.

(** The value of [fmt.Errorf("Error parsing ids, %q: %v", path, err)], by its
    two operands. *)
Inductive ids_error : Type :=
| ErrorParsingIds (path : string) (err : error).

(** Stored bytes: a JSON text, by the value it denotes, or bytes that are no
    JSON text. *)
Inductive bytes : Type :=
| NotJSON
| JSON (v : json.value).

Definition StatusNotFound : N := 404.
Definition StatusInternalServerError : N := 500.
Definition StatusMethodNotAllowed : N := 405.

Fixpoint textOrJson (accepts : list string) : string :=
  match accepts with
  | [] => "text/plain"
  | a :: rest =>
      if String.eqb a "application/json" then "application/json"
      else if String.eqb a "text/plain" then "text/plain"
      else if String.eqb a "*/*" then "text/plain"
      else textOrJson rest
  end.

Definition error404 (w : ResponseWriter) (r : Request) : ResponseWriter :=
  let t := textOrJson (Accept r) in
  if String.eqb t "text/plain"
  then (w ++ [Error "Resource Not Found" StatusNotFound])%list
  else if String.eqb t "application/json"
  then (w ++ [Error "[]" StatusNotFound])%list
  else w.

Definition error500 (w : ResponseWriter) (r : Request) : ResponseWriter :=
  let t := textOrJson (Accept r) in
  if String.eqb t "text/plain"
  then (w ++ [Error "Server Error" StatusInternalServerError])%list
  else if String.eqb t "application/json"
  then (w ++ [Error "" StatusInternalServerError])%list
  else w.

(** The loop of [idsFromPath] over the pieces of the path, [ids] being the
    slice built so far. *)
Fixpoint idsFromPath_loop (path : string) (raw : list string) (ids : list N)
  : list N * option ids_error :=
  match raw with
  | [] => (ids, None)
  | s :: raw' =>
      if String.eqb s "" then idsFromPath_loop path raw' ids
      else
        match strconv.ParseUint s 16 64 with
        | (_, Some err) => (ids, Some (ErrorParsingIds path err))
        | (id, None) => idsFromPath_loop path raw' (ids ++ [id])%list
        end
  end.

Definition idsFromPath (path : string) : list N * option ids_error :=
  idsFromPath_loop path (strings.Split path "/") [].

(** [json.NewEncoder(w).Encode(rs)] for a non-nil slice: every element is
    encoded by its [MarshalJSON], whose error aborts the encoding, wrapped in
    a [MarshalerError]; nothing is written unless all succeed. *)
Fixpoint Marshal_resources (rs : list Resource.t) : result (list json.value) :=
  match rs with
  | [] => Ok []
  | r :: rs' =>
      match Resource.MarshalJSON r with
      | Err e => Err (MarshalerError "resource.Resource" e)
      | Ok v =>
          match Marshal_resources rs' with
          | Err e => Err e
          | Ok vs => Ok (v :: vs)
          end
      end
  end.

(** The writer is a [bytes.Buffer], whose [Write] never fails. *)
Definition encode_json (w : Buffer) (rs : list Resource.t) : Buffer * option error :=
  match Marshal_resources rs with
  | Err e => (w, Some e)
  | Ok vs => ((w ++ [JSONLine (json.JArray vs)])%list, None)
  end.

Fixpoint encode_text (w : Buffer) (rs : list Resource.t) : Buffer * option error :=
  match rs with
  | [] => (w, None)
  | r :: rs' => encode_text (w ++ [Text (Resource.String r ++ LF)%string])%list rs'
  end.

Definition encoder (accept : string)
  : Buffer -> list Resource.t -> Buffer * option error :=
  if String.eqb accept "application/json" then encode_json
  else encode_text.

(** [tmp.WriteTo(w)]: one [Write] of the whole buffer, none when it is
    empty. *)
Definition WriteTo (tmp : Buffer) (w : ResponseWriter) : ResponseWriter :=
  match tmp with
  | [] => w
  | _ => (w ++ [Write tmp])%list
  end.

Section Current.

(** [time.Time]'s [UnmarshalJSON], as for [Resource.UnmarshalJSON]. *)
Variable time_UnmarshalJSON : time.Time -> json.value -> time.Time * option error.

(** [b.Get] on the bucket "resources". *)
Variable Get : string -> option bytes.

(** What the goroutine of [getResource] sends on [rch]: the stored bytes of
    each id, in order, under the key [strconv.FormatUint(id, 16)]. *)
Definition sent (ids : list N) : list (option bytes) :=
  map (fun id => Get (strconv.FormatUint id 16)) ids.

(** [rc.UnmarshalJSON(raw)] on a new Resource: the Resource when the error is
    nil. Bytes that are no JSON text make [json.Unmarshal] fail. *)
Definition decode (raw : bytes) : option Resource.t :=
  match raw with
  | NotJSON => None
  | JSON v =>
      match Resource.UnmarshalJSON time_UnmarshalJSON Resource.zero v with
      | (rc, None) => Some rc
      | (_, Some _) => None
      end
  end.

(** The loop [for raw := range rch]: [None] when it leaves through
    [error500], else the resources collected. *)
Fixpoint receive (rch : list (option bytes)) (resources : list Resource.t)
  : option (list Resource.t) :=
  match rch with
  | [] => Some resources
  | None :: rch' => receive rch' resources
  | Some raw :: rch' =>
      match decode raw with
      | None => None
      | Some rc => receive rch' (resources ++ [rc])%list
      end
  end.

Definition getResource (w : ResponseWriter) (r : Request) (ids : list N)
  : ResponseWriter :=
  if Nat.eqb (List.length ids) 0 then error404 w r
  else
    match receive (sent ids) [] with
    | None => error500 w r
    | Some resources =>
        if Nat.eqb (List.length resources) 0 then error404 w r
        else
          match encoder (textOrJson (Accept r)) [] resources with
          | (_, Some err) => error500 w r
          | (tmp, None) => WriteTo tmp w
          end
    end.

(** The three handlers with an empty body. *)
Definition putResource (w : ResponseWriter) (r : Request) : ResponseWriter := w.
Definition deleteResource (w : ResponseWriter) (r : Request) : ResponseWriter := w.
Definition postResource (w : ResponseWriter) (r : Request) : ResponseWriter := w.

Definition ServeHTTP (w : ResponseWriter) (r : Request) : ResponseWriter :=
  let (ids, err) := idsFromPath (Path r) in
  let w := match err with
           | Some _ => error404 w r
           | None => w
           end in
  if String.eqb (Method r) "GET" then getResource w r ids
  else if String.eqb (Method r) "PUT" then putResource w r
  else if String.eqb (Method r) "POST" then postResource w r
  else if String.eqb (Method r) "DELETE" then deleteResource w r
  else (w ++ [Error "Method Not Allowed" StatusMethodNotAllowed])%list.

End Current.

End server.

(** ** Notions used in the statements on the server *)

(** No byte of the string is a slash. *)
Definition no_slash (s : string) : bool :=
  all_bytes (fun c => negb (Ascii.eqb c "/")) s.

(** The path [/k1/k2/...] made of the renderings [key id] of the ids. *)
Fixpoint path_of (key : N -> string) (ids : list N) : string :=
  match ids with
  | [] => EmptyString
  | id :: rest => String "/" (key id ++ path_of key rest)
  end.

(** An entry of the Accept header that [textOrJson] recognises. *)
Definition recognised (a : string) : bool :=
  String.eqb a "application/json" || String.eqb a "text/plain" || String.eqb a "*/*".

(** The line that [encode_text] writes for a Resource. *)
Definition line (r : Resource.t) : server.chunk :=
  server.Text (Resource.String r ++ server.LF).

(** No byte of the string is a line feed. *)
Definition no_LF (s : string) : bool :=
  all_bytes (fun c => negb (N_of_ascii c =? 10)) s.

(** [Resource.MarshalJSON] succeeds on the Resource: status in range and a
    year of four digits. *)
Definition can_marshal (r : Resource.t) : bool :=
  Status.inRange (Resource.Status r)
  && (0 <=? time.Year (Resource.Since r))%Z
  && (time.Year (Resource.Since r) <=? 9999)%Z.

Section Stored.
Variable tu : time.Time -> json.value -> time.Time * option error.
Variable Get : string -> option server.bytes.

(** The id is stored with bytes that [UnmarshalJSON] refuses. *)
Definition corrupt (id : N) : bool :=
  match Get (strconv.FormatUint id 16) with
  | Some raw =>
      match server.decode tu raw with
      | Some _ => false
      | None => true
      end
  | None => false
  end.

(** The Resources that are stored and decode, for the ids in order. *)
Definition stored_resources (ids : list N) : list Resource.t :=
  flat_map (fun id =>
              match Get (strconv.FormatUint id 16) with
              | Some raw =>
                  match server.decode tu raw with
                  | Some rc => [rc]
                  | None => []
                  end
              | None => []
              end) ids.
End Stored.

(** The string ends in [Z], as an RFC 3339 timestamp in UTC does. *)
Fixpoint ends_in_Z (s : string) : bool :=
  match s with
  | EmptyString => false
  | String c r =>
      match r with
      | EmptyString => Ascii.eqb c "Z"
      | String _ _ => ends_in_Z r
      end
  end.

(** Every member of the object that designates since and holds a string
    holds one that ends in [Z]: whatever [time.Time]'s [UnmarshalJSON] reads
    from it is a time in UTC. *)
Definition utc_since (v : json.value) : bool :=
  match v with
  | json.JObject ms =>
      forallb (fun m => match Resource.field_of_key (fst m), snd m with
                        | Some Resource.FSince, json.JString _ s => ends_in_Z s
                        | _, _ => true
                        end) ms
  | _ => true
  end.

(** The methods whose handler has an empty body. *)
Definition silent (method : string) : bool :=
  String.eqb method "PUT" || String.eqb method "POST" || String.eqb method "DELETE".

(** The result of [idsFromPath] without the path that its error quotes: the
    ids and the error of [ParseUint]. *)
Definition strip_path (res : list N * option server.ids_error)
  : list N * option error :=
  (fst res,
   match snd res with
   | Some (server.ErrorParsingIds _ err) => Some err
   | None => None
   end).

(** * Proofs *)

(** ** The model on concrete inputs *)

Example FormatUint_255 : strconv.FormatUint 255 10 = "255".
Proof. reflexivity. Qed.

Example verb_X_example : fmt.verb_X 0x0123456789ABCDEF = "123456789ABCDEF".
Proof. reflexivity. Qed.

Example verb_016X_example : fmt.verb_016X 0x0123456789ABCDEF = "0123456789ABCDEF".
Proof. reflexivity. Qed.

Example ParseUint_zz :
  strconv.ParseUint "zz" 16 64 = (0, Some (NumError "ParseUint" "zz" ErrSyntax)).
Proof. reflexivity. Qed.

Example ParseUint_mixed_case :
  strconv.ParseUint "ffffffffFFFFFFFF" 16 64 = (strconv.maxUint64, None).
Proof. reflexivity. Qed.

Example ParseUint_17_digits :
  strconv.ParseUint "10000000000000000" 16 64
  = (strconv.maxUint64, Some (NumError "ParseUint" "10000000000000000" ErrRange)).
Proof. reflexivity. Qed.

Example ParseUint_prefix :
  strconv.ParseUint "0x1F" 16 64 = (0, Some (NumError "ParseUint" "0x1F" ErrSyntax)).
Proof. reflexivity. Qed.

Example Format_zero : time.Format_RFC3339 time.zero = "0001-01-01T00:00:00Z".
Proof. reflexivity. Qed.

Example Format_unix_epoch :
  time.abs_sec (time.Date 1970 1 1 0 0 0 0) = 62135596800%Z
  /\ time.Format_RFC3339 (time.Date 1970 1 1 0 0 0 0) = "1970-01-01T00:00:00Z".
Proof. split; reflexivity. Qed.

Example Format_leap_day :
  time.Format_RFC3339Nano (time.Date 2024 2 29 23 59 59 120000)
  = "2024-02-29T23:59:59.00012Z".
Proof. reflexivity. Qed.

Example Format_before_zero :
  time.Format_RFC3339 (time.mkTime (-1)) = "0000-12-31T23:59:59Z".
Proof. reflexivity. Qed.

Example Format_year_10000 :
  time.Format_RFC3339 (time.Date 10000 1 1 0 0 0 0) = "10000-01-01T00:00:00Z".
Proof. reflexivity. Qed.

Example parse_offset :
  time.parseRFC3339 "2006-01-02T22:04:05+07:00" = Some (time.Date 2006 1 2 15 4 5 0).
Proof. reflexivity. Qed.

Example parse_bad_day : time.parseRFC3339 "2023-02-29T00:00:00Z" = None.
Proof. reflexivity. Qed.

Example field_of_key_examples :
  Resource.field_of_key "id" = Some Resource.FId
  /\ Resource.field_of_key "FRIENDLYNAME" = Some Resource.FFriendlyName
  /\ Resource.field_of_key "Since" = Some Resource.FSince
  /\ Resource.field_of_key "name" = None.
Proof. repeat split. Qed.

Example MarshalJSON_example :
  Resource.MarshalJSON example_resource
  = Ok (json.JObject
          [("id", json.JString false "123456789ABCDEF");
           ("friendlyName", json.JString false "My Resource");
           ("status", json.JNumber "1");
           ("since", json.JString false "2006-01-02T15:04:05Z")]).
Proof. reflexivity. Qed.

Example UnmarshalJSON_empty_object :
  Resource.UnmarshalJSON time.UnmarshalJSON_RFC3339 example_resource (json.JObject [])
  = (Resource.zero, None).
Proof. reflexivity. Qed.

Example UnmarshalJSON_id_number :
  Resource.UnmarshalJSON time.UnmarshalJSON_RFC3339 example_resource
    (json.JObject [("id", json.JNumber "5"); ("friendlyName", json.JString false "x")])
  = (example_resource, Some (UnmarshalTypeError "number" "string")).
Proof. reflexivity. Qed.

(** ** strconv: reading back a numeral *)

Lemma N_lt_cases (P : N -> Prop) (k : nat) :
  (forall n : nat, (n < k)%nat -> P (N.of_nat n)) -> forall d, d < N.of_nat k -> P d.
Proof.
  intros H d Hd. rewrite <- (N2Nat.id d). apply H. lia.
Qed.

Lemma digit_val_lower d :
  d < 36 -> strconv.digit_val (N_of_ascii (strconv.digit_lower d)) = Some d.
Proof.
  revert d. apply (N_lt_cases _ 36). intros n Hn.
  do 36 (destruct n as [|n]; [reflexivity|]). lia.
Qed.

Lemma digit_val_upper d :
  d < 16 -> strconv.digit_val (N_of_ascii (strconv.digit_upper d)) = Some d.
Proof.
  revert d. apply (N_lt_cases _ 16). intros n Hn.
  do 16 (destruct n as [|n]; [reflexivity|]). lia.
Qed.

Section FormatParse.
Variable digit : N -> ascii.
Variables b maxVal : N.
Hypothesis Hb : 2 <= b.
Hypothesis Hdigit : forall d, d < b -> strconv.digit_val (N_of_ascii (digit d)) = Some d.
Hypothesis HmaxVal : maxVal <= strconv.maxUint64.

Let cutoff := strconv.maxUint64 / b + 1.

Lemma parse_loop_digit u acc :
  u <= maxVal ->
  strconv.parse_loop b cutoff maxVal (String (digit (u mod b)) acc) (u / b)
  = strconv.parse_loop b cutoff maxVal acc u.
Proof.
  intros Hu. cbn [strconv.parse_loop].
  assert (Hm : u mod b < b) by (apply N.mod_lt; lia).
  rewrite (Hdigit _ Hm).
  assert (Hdiv : u / b <= strconv.maxUint64 / b) by (apply N.Div0.div_le_mono; lia).
  assert (Hmul : u / b * b + u mod b = u).
  { rewrite N.mul_comm. symmetry. apply N.div_mod. lia. }
  assert (H64 : strconv.maxUint64 < 2 ^ 64) by (unfold strconv.maxUint64; lia).
  unfold cutoff.
  remember (strconv.maxUint64 / b) as m eqn:Em.
  remember (u / b) as q eqn:Eq. remember (u mod b) as r eqn:Er.
  clear Em Eq Er.
  destruct (N.leb_spec b r); [lia|].
  destruct (N.leb_spec (m + 1) q); [lia|].
  rewrite (N.mod_small (q * b)) by lia.
  rewrite Hmul. rewrite (N.mod_small u) by lia.
  destruct (N.ltb_spec u (q * b)); [lia|].
  destruct (N.ltb_spec maxVal u); [lia|]. reflexivity.
Qed.

Lemma parse_loop_formatBits fuel : forall u acc,
  u <= maxVal -> u < b ^ N.of_nat (S fuel) ->
  strconv.parse_loop b cutoff maxVal (strconv.formatBits digit fuel u b acc) 0
  = strconv.parse_loop b cutoff maxVal acc u.
Proof.
  assert (Hfirst : forall u acc, u <= maxVal -> u < b ->
    strconv.parse_loop b cutoff maxVal (String (digit u) acc) 0
    = strconv.parse_loop b cutoff maxVal acc u).
  { intros u acc Hu Hlt.
    pose proof (parse_loop_digit u acc Hu) as H.
    rewrite N.mod_small, N.div_small in H by assumption. exact H. }
  induction fuel as [|f IH]; intros u acc Hu Hlt.
  - cbn [strconv.formatBits]. apply Hfirst; [assumption|].
    change (N.of_nat 1) with 1 in Hlt. rewrite N.pow_1_r in Hlt. assumption.
  - cbn [strconv.formatBits]. destruct (N.leb_spec b u) as [Hge|Hlt'].
    + rewrite IH.
      * apply parse_loop_digit; assumption.
      * etransitivity; [apply N.Div0.div_le_upper_bound with (q := u)|exact Hu]. nia.
      * apply N.Div0.div_lt_upper_bound.
        replace (N.of_nat (S (S f))) with (N.succ (N.of_nat (S f))) in Hlt by lia.
        rewrite N.pow_succ_r' in Hlt. exact Hlt.
    + apply Hfirst; assumption.
Qed.
End FormatParse.

(** ** Strings *)

Lemma all_bytes_app P s1 s2 :
  all_bytes P (s1 ++ s2) = all_bytes P s1 && all_bytes P s2.
Proof.
  induction s1 as [|c r IH]; cbn; [reflexivity|].
  rewrite IH. apply andb_assoc.
Qed.

Lemma all_bytes_impl (P Q : ascii -> bool) s :
  (forall c, P c = true -> Q c = true) ->
  all_bytes P s = true -> all_bytes Q s = true.
Proof.
  intros HPQ. induction s as [|c r IH]; cbn; [reflexivity|].
  intros [Hc Hr]%andb_prop. rewrite (HPQ _ Hc), (IH Hr). reflexivity.
Qed.

Lemma length_app s1 s2 :
  String.length (s1 ++ s2) = (String.length s1 + String.length s2)%nat.
Proof. induction s1 as [|c r IH]; cbn; [reflexivity|]. now rewrite IH. Qed.

Lemma app_assoc s1 s2 s3 : ((s1 ++ s2) ++ s3 = s1 ++ (s2 ++ s3))%string.
Proof. induction s1 as [|c r IH]; cbn; [reflexivity|]. now rewrite IH. Qed.

Lemma app_empty_r s : (s ++ "" = s)%string.
Proof. induction s as [|c r IH]; cbn; [reflexivity|]. now rewrite IH. Qed.

(** ** strconv: shape of the numerals *)

Section FormatShape.
Variable digit : N -> ascii.
Variable b : N.
Hypothesis Hb : 2 <= b.

Lemma formatBits_nonempty fuel : forall u acc,
  strconv.formatBits digit fuel u b acc <> "".
Proof.
  induction fuel as [|f IH]; intros u acc; cbn [strconv.formatBits].
  - discriminate.
  - destruct (b <=? u); [apply IH | discriminate].
Qed.

Lemma formatBits_length fuel : forall u acc k,
  (1 <= k)%nat -> u < b ^ N.of_nat k ->
  (1 + String.length acc <= String.length (strconv.formatBits digit fuel u b acc)
   <= k + String.length acc)%nat.
Proof.
  induction fuel as [|f IH]; intros u acc k Hk Hu; cbn [strconv.formatBits].
  - cbn. lia.
  - destruct (N.leb_spec b u) as [Hge|Hlt]; [|cbn; lia].
    destruct k as [|[|k]]; [lia| |].
    + change (N.of_nat 1) with 1 in Hu. rewrite N.pow_1_r in Hu. lia.
    + specialize (IH (u / b) (String (digit (u mod b)) acc) (S k)).
      cbn [String.length] in IH. 
      assert (u / b < b ^ N.of_nat (S k)).
      { apply N.Div0.div_lt_upper_bound.
        replace (N.of_nat (S (S k))) with (N.succ (N.of_nat (S k))) in Hu by lia.
        rewrite N.pow_succ_r' in Hu. exact Hu. }
      specialize (IH ltac:(lia) H). lia.
Qed.

Lemma formatBits_all (P : ascii -> bool) fuel : forall u acc,
  (forall d, d < b -> P (digit d) = true) ->
  u < b ^ N.of_nat (S fuel) ->
  all_bytes P acc = true ->
  all_bytes P (strconv.formatBits digit fuel u b acc) = true.
Proof.
  intros u acc HP. revert u acc.
  induction fuel as [|f IH]; intros u acc Hu Hacc; cbn [strconv.formatBits].
  - change (N.of_nat 1) with 1 in Hu. rewrite N.pow_1_r in Hu.
    cbn. now rewrite HP, Hacc.
  - destruct (N.leb_spec b u) as [Hge|Hlt].
    + apply IH.
      * apply N.Div0.div_lt_upper_bound.
        replace (N.of_nat (S (S f))) with (N.succ (N.of_nat (S f))) in Hu by lia.
        rewrite N.pow_succ_r' in Hu. exact Hu.
      * cbn. rewrite HP, Hacc; [reflexivity|]. apply N.mod_lt. lia.
    + cbn. now rewrite HP, Hacc.
Qed.

Lemma formatBits_head fuel : forall u acc,
  u <> 0 -> u < b ^ N.of_nat (S fuel) ->
  exists d, 0 < d < b /\ head (strconv.formatBits digit fuel u b acc) = Some (digit d).
Proof.
  induction fuel as [|f IH]; intros u acc Hu0 Hu; cbn [strconv.formatBits].
  - change (N.of_nat 1) with 1 in Hu. rewrite N.pow_1_r in Hu.
    exists u. split; [lia|reflexivity].
  - destruct (N.leb_spec b u) as [Hge|Hlt].
    + apply IH.
      * intros H0. apply N.div_small_iff in H0; lia.
      * apply N.Div0.div_lt_upper_bound.
        replace (N.of_nat (S (S f))) with (N.succ (N.of_nat (S f))) in Hu by lia.
        rewrite N.pow_succ_r' in Hu. exact Hu.
    + exists u. split; [lia|reflexivity].
Qed.
End FormatShape.

Lemma pow2_64_le_pow b k : 2 <= b -> (64 <= k)%nat -> 2 ^ 64 <= b ^ N.of_nat k.
Proof.
  intros Hb Hk. transitivity (2 ^ N.of_nat k).
  - apply N.pow_le_mono_r; lia.
  - apply N.pow_le_mono_l; lia.
Qed.

Lemma is_upper_hex_digit d : d < 16 -> is_upper_hex (strconv.digit_upper d) = true.
Proof.
  revert d. apply (N_lt_cases _ 16). intros n Hn.
  do 16 (destruct n as [|n]; [reflexivity|]). lia.
Qed.

Lemma digit_upper_nonzero d : 0 < d < 16 -> strconv.digit_upper d <> "0"%char.
Proof.
  intros [H0 H]. revert d H H0. apply (N_lt_cases (fun d => 0 < d -> _) 16). intros n Hn.
  do 16 (destruct n as [|n]; [intros; (lia || discriminate)|]). lia.
Qed.

(** [ParseUint(s, 16, 64)] reads back what [%X] writes. *)
Lemma ParseUint_verb_X id :
  id < 2 ^ 64 -> strconv.ParseUint (fmt.verb_X id) 16 64 = (id, None).
Proof.
  intros Hid. unfold strconv.ParseUint.
  pose proof (formatBits_nonempty strconv.digit_upper 16 64 id "") as Hne.
  fold (fmt.verb_X id) in Hne.
  destruct (fmt.verb_X id) as [|c r] eqn:E; [congruence|]. rewrite <- E.
  unfold fmt.verb_X.
  rewrite (parse_loop_formatBits strconv.digit_upper 16 (2 ^ 64 - 1)).
  - reflexivity.
  - lia.
  - apply digit_val_upper.
  - unfold strconv.maxUint64. lia.
  - lia.
  - eapply N.lt_le_trans; [exact Hid|]. apply pow2_64_le_pow; lia.
Qed.

(** [ParseUint(s, 10, 64)] reads back what [FormatUint(n, 10)] writes. *)
Lemma ParseUint_FormatUint n :
  n < 2 ^ 64 -> strconv.ParseUint (strconv.FormatUint n 10) 10 64 = (n, None).
Proof.
  intros Hn. unfold strconv.ParseUint.
  pose proof (formatBits_nonempty strconv.digit_lower 10 64 n "") as Hne.
  fold (strconv.FormatUint n 10) in Hne.
  destruct (strconv.FormatUint n 10) as [|c r] eqn:E; [congruence|]. rewrite <- E.
  unfold strconv.FormatUint.
  rewrite (parse_loop_formatBits strconv.digit_lower 10 (2 ^ 64 - 1)).
  - reflexivity.
  - lia.
  - intros d Hd. apply digit_val_lower. lia.
  - unfold strconv.maxUint64. lia.
  - lia.
  - eapply N.lt_le_trans; [exact Hn|]. apply pow2_64_le_pow; lia.
Qed.

(** ** utf8 and the encoding of strings *)

Lemma coerce_from_valid s : forall pending,
  utf8.valid_from pending s = true -> utf8.coerce_from pending s = s.
Proof.
  induction s as [|c r IH]; intros pending; cbn; [reflexivity|].
  destruct pending as [|k].
  - destruct (N_of_ascii c <? 128).
    + intros H. now rewrite IH.
    + destruct (utf8.rune_tail (N_of_ascii c) r) as [k|]; [|discriminate].
      intros H. now rewrite IH.
  - intros H. now rewrite IH.
Qed.

Lemma coerce_valid s : utf8.ValidString s = true -> utf8.coerce s = s.
Proof. apply coerce_from_valid. Qed.

Lemma ValidString_ascii s :
  all_bytes (fun c => N_of_ascii c <? 128) s = true -> utf8.ValidString s = true.
Proof.
  unfold utf8.ValidString. induction s as [|c r IH]; cbn; [reflexivity|].
  intros [Hc Hr]%andb_prop. rewrite Hc. auto.
Qed.

Lemma upper_hex_ascii c : is_upper_hex c = true -> (N_of_ascii c <? 128) = true.
Proof. unfold is_upper_hex. lia. Qed.

Lemma has_escaped_byte_upper_hex s :
  all_bytes is_upper_hex s = true -> json.has_escaped_byte s = false.
Proof.
  induction s as [|c r IH]; cbn [all_bytes json.has_escaped_byte]; [reflexivity|].
  intros [Hc Hr]%andb_prop. rewrite (IH Hr).
  unfold is_upper_hex in Hc.
  destruct r as [|c1 [|c2 r2]]; cbv beta iota zeta; lia.
Qed.

Lemma verb_X_upper_hex id : id < 2 ^ 64 -> all_bytes is_upper_hex (fmt.verb_X id) = true.
Proof.
  intros Hid. apply formatBits_all.
  - lia.
  - apply is_upper_hex_digit.
  - eapply N.lt_le_trans; [exact Hid|]. apply pow2_64_le_pow; lia.
  - reflexivity.
Qed.

(** The identifier written by [%X] goes through the encoder unchanged. *)
Lemma Marshal_string_verb_X id :
  id < 2 ^ 64 -> json.Marshal_string (fmt.verb_X id) = json.JString false (fmt.verb_X id).
Proof.
  intros Hid. pose proof (verb_X_upper_hex id Hid) as Hhex.
  unfold json.Marshal_string.
  rewrite (has_escaped_byte_upper_hex _ Hhex).
  assert (Hv : utf8.ValidString (fmt.verb_X id) = true).
  { apply ValidString_ascii. eapply all_bytes_impl; [|exact Hhex]. apply upper_hex_ascii. }
  rewrite Hv, (coerce_valid _ Hv). reflexivity.
Qed.

(** ** time: the calendar *)

Module time_facts.
Local Open Scope Z_scope.

Ltac era_setup n :=
  unfold time.civil; cbv zeta;
  set (z := n + 306);
  set (doe := z mod 146097);
  set (yoe := (doe - doe / 1460 + doe / 36524 - doe / 146096) / 365);
  set (doy := doe - (365 * yoe + yoe / 4 - yoe / 100));
  set (mp := (5 * doy + 2) / 153);
  assert (Hdoe : 0 <= doe < 146097) by (apply Z.mod_pos_bound; lia);
  assert (Hyoe : 0 <= yoe < 400) by (subst yoe; Z.div_mod_to_equations; lia);
  assert (Hdoy : 0 <= doy < 366) by (subst doy yoe; Z.div_mod_to_equations; lia);
  assert (Hmp : 0 <= mp < 12) by (subst mp; Z.div_mod_to_equations; lia).

(** [days_from_civil] inverts [civil]. *)
Lemma days_from_civil_civil n :
  let '(y, m, d) := time.civil n in time.days_from_civil y m d = n.
Proof.
  era_setup n. unfold time.days_from_civil. cbv zeta.
  pose proof (Z.div_mod z 146097 ltac:(lia)) as Hz. fold doe in Hz.
  destruct (Z.ltb_spec mp 10).
  - destruct (Z.leb_spec (mp + 3) 2); [lia|].
    destruct (Z.ltb_spec 2 (mp + 3)); [|lia].
    replace (mp + 3 - 3) with mp by lia.
    replace ((yoe + z / 146097 * 400 + 0) / 400) with (z / 146097)
      by (Z.div_mod_to_equations; lia).
    replace ((yoe + z / 146097 * 400 + 0) mod 400) with yoe
      by (Z.div_mod_to_equations; lia).
    subst doy. lia.
  - destruct (Z.leb_spec (mp - 9) 2); [|lia].
    destruct (Z.ltb_spec 2 (mp - 9)); [lia|].
    replace (mp - 9 + 9) with mp by lia.
    replace (yoe + z / 146097 * 400 + 1 - 1) with (yoe + z / 146097 * 400) by lia.
    replace ((yoe + z / 146097 * 400) / 400) with (z / 146097)
      by (Z.div_mod_to_equations; lia).
    replace ((yoe + z / 146097 * 400) mod 400) with yoe
      by (Z.div_mod_to_equations; lia).
    subst doy. lia.
Qed.

(** [civil] yields a month and a day of that month. *)
Lemma civil_valid n :
  let '(y, m, d) := time.civil n in
  1 <= m <= 12 /\ 1 <= d <= time.daysIn m y.
Proof.
  era_setup n.
  assert (Hleap : doy = 365 ->
            (yoe + 1) mod 4 = 0
            /\ ((yoe + 1) mod 100 <> 0 \/ (yoe + 1) mod 400 = 0))
    by (subst doy yoe; Z.div_mod_to_equations; lia).
  set (y := yoe + z / 146097 * 400 + _).
  assert (Hy : 10 <= mp -> y = yoe + 1 + z / 146097 * 400).
  { subst y. destruct (Z.ltb_spec mp 10); [lia|].
    destruct (Z.leb_spec (mp - 9) 2); lia. }
  assert (Hy4 : 10 <= mp -> y mod 4 = (yoe + 1) mod 4)
    by (intros H; rewrite (Hy H); Z.div_mod_to_equations; lia).
  assert (Hy100 : 10 <= mp -> y mod 100 = (yoe + 1) mod 100)
    by (intros H; rewrite (Hy H); Z.div_mod_to_equations; lia).
  assert (Hy400 : 10 <= mp -> y mod 400 = (yoe + 1) mod 400)
    by (intros H; rewrite (Hy H); Z.div_mod_to_equations; lia).
  clearbody y. clear Hy.
  unfold time.daysIn, time.isLeap.
  assert (Emp : mp = (5 * doy + 2) / 153) by reflexivity.
  clearbody mp. clearbody doy. clear Hdoe. clearbody yoe.
  repeat match goal with
         | |- context[if ?c then _ else _] => destruct c eqn:?
         end;
    (Z.div_mod_to_equations; lia).
Qed.

(** The clock fields rebuild the second of the day. *)
Lemma clock_fields t :
  0 <= time.Hour t < 24 /\ 0 <= time.Minute t < 60 /\ 0 <= time.Second t < 60
  /\ time.Hour t * 3600 + time.Minute t * 60 + time.Second t = time.sec_of_day t.
Proof.
  unfold time.Hour, time.Minute, time.Second.
  assert (0 <= time.sec_of_day t < 86400)
    by (unfold time.sec_of_day, time.secondsPerDay; apply Z.mod_pos_bound; lia).
  Z.div_mod_to_equations; lia.
Qed.

Lemma Nanosecond_range t : 0 <= time.Nanosecond t < 1000000000.
Proof. unfold time.Nanosecond, time.nsPerSecond. apply Z.mod_pos_bound. lia. Qed.

(** An instant is its day, its second of the day and its nanosecond. *)
Lemma instant_fields t :
  (time.abs_days t * time.secondsPerDay + time.sec_of_day t) * time.nsPerSecond
  + time.Nanosecond t = time.abs_ns t.
Proof.
  unfold time.abs_days, time.sec_of_day, time.Nanosecond, time.abs_sec,
    time.secondsPerDay, time.nsPerSecond.
  Z.div_mod_to_equations; lia.
Qed.

Lemma date_fields t :
  1 <= time.Month t <= 12 /\ 1 <= time.Day t <= time.daysIn (time.Month t) (time.Year t)
  /\ time.days_from_civil (time.Year t) (time.Month t) (time.Day t) = time.abs_days t.
Proof.
  unfold time.Year, time.Month, time.Day.
  pose proof (civil_valid (time.abs_days t)) as Hv.
  pose proof (days_from_civil_civil (time.abs_days t)) as Hd.
  destruct (time.civil (time.abs_days t)) as [[y m] d]. cbn [fst snd].
  tauto.
Qed.

Lemma daysIn_le_31 m y : time.daysIn m y <= 31.
Proof.
  unfold time.daysIn.
  repeat match goal with
         | |- context[if ?c then _ else _] => destruct c
         end; lia.
Qed.
End time_facts.

(** ** time: writing and reading decimal fields *)

Module digits.
Local Open Scope Z_scope.

Lemma digit_digit_lower d :
  (d < 10)%N -> time.digit (strconv.digit_lower d) = Some (Z.of_N d).
Proof.
  revert d. apply (N_lt_cases _ 10). intros n Hn.
  do 10 (destruct n as [|n]; [reflexivity|]). lia.
Qed.

Lemma getnum_digit d w s acc :
  (d < 10)%N ->
  time.getnum (S w) (String (strconv.digit_lower d) s) acc
  = time.getnum w s (acc * 10 + Z.of_N d).
Proof. intros Hd. cbn [time.getnum]. now rewrite (digit_digit_lower d Hd). Qed.

(** Reading the digits written by [formatBits] accumulates the number. *)
Lemma getnum_formatBits rest fuel : forall u acc,
  (u < 10 ^ N.of_nat (S fuel))%N ->
  time.getnum
    (String.length (strconv.formatBits strconv.digit_lower fuel u 10 acc))
    (strconv.formatBits strconv.digit_lower fuel u 10 acc ++ rest) 0
  = time.getnum (String.length acc) (acc ++ rest) (Z.of_N u).
Proof.
  induction fuel as [|f IH]; intros u acc Hu; cbn [strconv.formatBits].
  - change (N.of_nat 1) with 1%N in Hu. rewrite N.pow_1_r in Hu.
    cbn [String.length append]. now rewrite getnum_digit.
  - destruct (N.leb_spec 10 u) as [Hge|Hlt].
    + rewrite IH.
      * cbn [String.length append]. rewrite getnum_digit by (apply N.mod_lt; lia).
        f_equal. pose proof (N.div_mod u 10 ltac:(lia)). lia.
      * apply N.Div0.div_lt_upper_bound.
        replace (N.of_nat (S (S f))) with (N.succ (N.of_nat (S f))) in Hu by lia.
        rewrite N.pow_succ_r' in Hu. exact Hu.
    + cbn [String.length append]. now rewrite getnum_digit.
Qed.

Lemma getnum_pad rest s n : forall k,
  time.getnum (n + k) (fmt.pad n "0" s ++ rest) 0 = time.getnum k (s ++ rest) 0.
Proof.
  induction n as [|n IH]; intros k; [reflexivity|].
  cbn [fmt.pad Nat.add append time.getnum]. cbn [time.digit]. apply IH.
Qed.

Lemma length_pad n c s : String.length (fmt.pad n c s) = (n + String.length s)%nat.
Proof. induction n as [|n IH]; cbn; [reflexivity|]. now rewrite IH. Qed.

Lemma all_bytes_pad P n c s :
  P c = true -> all_bytes P s = true -> all_bytes P (fmt.pad n c s) = true.
Proof. intros Hc Hs. induction n as [|n IH]; cbn; [assumption|]. now rewrite Hc, IH. Qed.

Lemma size_fuel u : (u < 10 ^ N.of_nat (S (N.to_nat (N.size u))))%N.
Proof.
  apply N.lt_le_trans with (2 ^ N.size u)%N; [apply N.size_gt|].
  transitivity (10 ^ N.size u)%N; [apply N.pow_le_mono_l; lia|].
  apply N.pow_le_mono_r; lia.
Qed.

(** A non-negative number below [10 ^ width] is written on exactly [width]
    digits, and read back by [getnum]. *)
Lemma appendInt_length x w :
  (1 <= w)%nat -> 0 <= x < 10 ^ Z.of_nat w -> String.length (time.appendInt x w) = w.
Proof.
  intros Hw Hx. unfold time.appendInt. cbv zeta.
  destruct (Z.ltb_spec x 0); [lia|]. cbn [append].
  unfold fmt.pad_left. rewrite length_pad.
  pose proof (formatBits_length strconv.digit_lower 10 ltac:(lia)
                (N.to_nat (N.size (Z.abs_N x))) (Z.abs_N x) "" w Hw) as Hlen.
  cbn [String.length] in Hlen.
  assert (Hlt : (Z.abs_N x < 10 ^ N.of_nat w)%N).
  { apply N2Z.inj_lt. rewrite N2Z.inj_pow, N2Z.inj_abs_N, nat_N_Z.
    rewrite Z.abs_eq by lia. cbn. lia. }
  specialize (Hlen Hlt). lia.
Qed.

Lemma getnum_appendInt x w rest :
  (1 <= w)%nat -> 0 <= x < 10 ^ Z.of_nat w ->
  time.getnum w (time.appendInt x w ++ rest) 0 = Some (x, rest).
Proof.
  intros Hw Hx. pose proof (appendInt_length x w Hw Hx) as Hlen.
  revert Hlen. unfold time.appendInt. cbv zeta.
  destruct (Z.ltb_spec x 0); [lia|]. cbn [append].
  unfold fmt.pad_left. rewrite length_pad.
  set (F := strconv.formatBits _ _ _ _ _). intros Hlen.
  replace w with ((w - String.length F) + String.length F)%nat at 1 by lia.
  rewrite getnum_pad. subst F. rewrite getnum_formatBits by apply size_fuel.
  cbn [String.length append time.getnum].
  rewrite N2Z.inj_abs_N, Z.abs_eq by lia. reflexivity.
Qed.

Lemma appendInt_all (P : ascii -> bool) x w :
  P "-"%char = true -> (forall d, (d < 10)%N -> P (strconv.digit_lower d) = true) ->
  all_bytes P (time.appendInt x w) = true.
Proof.
  intros Hm Hd. unfold time.appendInt. cbv zeta. rewrite all_bytes_app.
  apply andb_true_intro. split.
  - destruct (Z.ltb x 0); cbn; [now rewrite Hm | reflexivity].
  - unfold fmt.pad_left. apply all_bytes_pad; [apply (Hd 0%N); lia|].
    apply formatBits_all; [lia | assumption | apply size_fuel | reflexivity].
Qed.
End digits.

(** ** time: the fraction of a second *)

Module nanos.
Local Open Scope Z_scope.

Lemma frac_no_digit k rest acc :
  no_digit_head rest -> time.frac k rest acc = (acc * 10 ^ Z.of_nat k, rest).
Proof.
  destruct rest as [|c r]; cbn [no_digit_head time.frac]; [reflexivity|].
  now intros ->.
Qed.

Lemma digit_zero c : Ascii.eqb c "0" = true -> time.digit c = Some 0.
Proof. now intros ->%Ascii.eqb_eq. Qed.

(** Trailing zeros of a fraction do not change what [frac] reads. *)
Lemma frac_trim rest : no_digit_head rest -> forall s acc v,
  time.getnum (String.length s) (s ++ rest) acc = Some (v, rest) ->
  time.frac (String.length s) (time.trim_zeros s ++ rest) acc = (v, rest).
Proof.
  intros Hrest. induction s as [|c s IH]; intros acc v.
  - cbn [String.length append time.getnum time.trim_zeros].
    intros [= <-]. rewrite frac_no_digit by assumption. f_equal. cbn. lia.
  - cbn [String.length append time.getnum time.trim_zeros].
    destruct (time.digit c) as [d|] eqn:Ed; [|discriminate].
    intros Hg. specialize (IH _ _ Hg).
    destruct (time.trim_zeros s) as [|c' r'].
    + cbn [append] in IH. destruct (Ascii.eqb c "0") eqn:Ec.
      * rewrite (digit_zero c Ec) in Ed. injection Ed as <-.
        rewrite frac_no_digit in IH by assumption.
        cbn [append]. rewrite frac_no_digit by assumption.
        injection IH as <-. f_equal. rewrite Nat2Z.inj_succ, Z.pow_succ_r by lia. lia.
      * cbn [append time.frac]. rewrite Ed. exact IH.
    + cbn [append time.frac]. rewrite Ed. exact IH.
Qed.

Lemma trim_empty_value rest : forall s acc v r,
  time.trim_zeros s = "" ->
  time.getnum (String.length s) (s ++ rest) acc = Some (v, r) ->
  v = acc * 10 ^ Z.of_nat (String.length s).
Proof.
  induction s as [|c s IH]; intros acc v r.
  - cbn. intros _ [= <- _]. lia.
  - cbn [String.length append time.getnum time.trim_zeros].
    destruct (time.trim_zeros s) as [|c' r'] eqn:Et; [|discriminate].
    destruct (Ascii.eqb c "0") eqn:Ec; [|discriminate]. intros _.
    rewrite (digit_zero c Ec). intros Hg.
    rewrite (IH _ _ _ eq_refl Hg), Nat2Z.inj_succ, Z.pow_succ_r by lia. lia.
Qed.

Lemma trim_head s c r :
  time.trim_zeros s = String c r -> exists s', s = String c s'.
Proof.
  destruct s as [|c0 s0]; cbn [time.trim_zeros]; [discriminate|].
  destruct (time.trim_zeros s0).
  - destruct (Ascii.eqb c0 "0"); [discriminate|]. intros [= -> _]. eauto.
  - intros [= -> _]. eauto.
Qed.

(** [parse_nanos] reads the nanosecond that [appendNano] writes. *)
Lemma parse_nanos_appendNano ns :
  0 <= ns < 1000000000 ->
  time.parse_nanos (time.appendNano ns ++ "Z") = Some (ns, "Z"%string).
Proof.
  intros Hns. unfold time.appendNano.
  destruct (Z.eqb_spec ns 0) as [->|Hnz]; [reflexivity|].
  pose proof (digits.getnum_appendInt ns 9 "Z" ltac:(lia) ltac:(lia)) as Hg.
  pose proof (digits.appendInt_length ns 9 ltac:(lia) ltac:(lia)) as Hlen.
  set (D := time.appendInt ns 9) in *. rewrite <- Hlen in Hg.
  assert (HZ : no_digit_head "Z") by reflexivity.
  pose proof (frac_trim "Z" HZ D 0 ns Hg) as Hf.
  destruct (time.trim_zeros D) as [|c r] eqn:Et.
  - pose proof (trim_empty_value "Z" D 0 ns "Z" Et Hg). lia.
  - destruct (trim_head D c r Et) as [s' Es'].
    rewrite Es' in Hg. cbn [String.length append time.getnum] in Hg.
    cbn [append time.parse_nanos].
    destruct (time.digit c) as [d|] eqn:Ed; [|discriminate].
    cbn [append] in Hf. rewrite Hlen in Hf. rewrite Hf. reflexivity.
Qed.
End nanos.

(** ** time: reading back what [MarshalJSON] writes *)

Module rfc3339.
Local Open Scope Z_scope.

Lemma expect_head c r : time.expect c (String c r) = Some r.
Proof. cbn. now rewrite Ascii.eqb_refl. Qed.

Lemma getnum2 x rest :
  0 <= x < 100 -> time.getnum 2 (time.appendInt x 2 ++ rest) 0 = Some (x, rest).
Proof. intros H. apply digits.getnum_appendInt; [lia|]. change (10 ^ Z.of_nat 2) with 100. lia. Qed.

Lemma getnum4 x rest :
  0 <= x < 10000 -> time.getnum 4 (time.appendInt x 4 ++ rest) 0 = Some (x, rest).
Proof. intros H. apply digits.getnum_appendInt; [lia|]. change (10 ^ Z.of_nat 4) with 10000. lia. Qed.

(** The reference reader inverts [Format_RFC3339Nano] on four-digit years. *)
Lemma parse_Format t :
  0 <= time.Year t <= 9999 ->
  time.parseRFC3339 (time.Format_RFC3339Nano t) = Some t.
Proof.
  intros Hy.
  destruct (time_facts.date_fields t) as (Hm & Hd & Hdays).
  destruct (time_facts.clock_fields t) as (Hh & Hmi & Hs & Hclock).
  pose proof (time_facts.Nanosecond_range t) as Hns.
  pose proof (time_facts.daysIn_le_31 (time.Month t) (time.Year t)) as H31.
  unfold time.Format_RFC3339Nano, time.format_seconds.
  repeat (rewrite !app_assoc; cbn [append]).
  unfold time.parseRFC3339.
  rewrite getnum4 by lia. rewrite expect_head.
  rewrite getnum2 by lia. rewrite expect_head.
  rewrite getnum2 by lia. rewrite expect_head.
  rewrite getnum2 by lia. rewrite expect_head.
  rewrite getnum2 by lia. rewrite expect_head.
  rewrite getnum2 by lia.
  rewrite nanos.parse_nanos_appendNano by lia.
  cbn [time.parse_zone].
  replace ((1 <=? time.Month t) && (time.Month t <=? 12) && (1 <=? time.Day t)
           && (time.Day t <=? time.daysIn (time.Month t) (time.Year t))
           && (time.Hour t <? 24) && (time.Minute t <? 60) && (time.Second t <? 60))
    with true by lia.
  rewrite Hdays. f_equal. destruct t as [ns]. f_equal.
  rewrite Z.sub_0_r, <- Z.add_assoc, <- Z.add_assoc, (Z.add_assoc (_ * 3600)), Hclock.
  apply (time_facts.instant_fields (time.mkTime ns)).
Qed.

(** Hence the reference [UnmarshalJSON] inverts [MarshalJSON]. *)
Lemma UnmarshalJSON_MarshalJSON t0 t v :
  time.MarshalJSON t = Ok v -> time.UnmarshalJSON_RFC3339 t0 v = (t, None).
Proof.
  unfold time.MarshalJSON.
  destruct (Z.ltb_spec (time.Year t) 0); [discriminate|].
  destruct (Z.leb_spec 10000 (time.Year t)); [discriminate|].
  cbn [orb]. intros [= <-]. cbn [time.UnmarshalJSON_RFC3339].
  rewrite parse_Format by lia. reflexivity.
Qed.
(** The timestamp of [Format_RFC3339] has 20 bytes on four-digit years. *)
Lemma Format_length t :
  0 <= time.Year t <= 9999 -> String.length (time.Format_RFC3339 t) = 20%nat.
Proof.
  intros Hy.
  destruct (time_facts.date_fields t) as (Hm & Hd & _).
  destruct (time_facts.clock_fields t) as (Hh & Hmi & Hs & _).
  pose proof (time_facts.daysIn_le_31 (time.Month t) (time.Year t)) as H31.
  unfold time.Format_RFC3339, time.format_seconds.
  rewrite !length_app.
  rewrite (digits.appendInt_length (time.Year t) 4)
    by (try change (10 ^ Z.of_nat 4) with 10000; lia).
  rewrite !(digits.appendInt_length _ 2)
    by (try change (10 ^ Z.of_nat 2) with 100; lia).
  reflexivity.
Qed.

(** The reference reader reads the timestamp of [Format_RFC3339] back as the
    instant it was made from, to the second. *)
Lemma parse_Format_seconds t :
  0 <= time.Year t <= 9999 ->
  time.parseRFC3339 (time.Format_RFC3339 t) = Some (to_second t).
Proof.
  intros Hy.
  destruct (time_facts.date_fields t) as (Hm & Hd & Hdays).
  destruct (time_facts.clock_fields t) as (Hh & Hmi & Hs & Hclock).
  pose proof (time_facts.daysIn_le_31 (time.Month t) (time.Year t)) as H31.
  unfold time.Format_RFC3339, time.format_seconds.
  repeat (rewrite !app_assoc; cbn [append]).
  unfold time.parseRFC3339.
  rewrite getnum4 by lia. rewrite expect_head.
  rewrite getnum2 by lia. rewrite expect_head.
  rewrite getnum2 by lia. rewrite expect_head.
  rewrite getnum2 by lia. rewrite expect_head.
  rewrite getnum2 by lia. rewrite expect_head.
  rewrite getnum2 by lia.
  cbn [time.parse_nanos time.parse_zone].
  replace ((1 <=? time.Month t) && (time.Month t <=? 12) && (1 <=? time.Day t)
           && (time.Day t <=? time.daysIn (time.Month t) (time.Year t))
           && (time.Hour t <? 24) && (time.Minute t <? 60) && (time.Second t <? 60))
    with true by lia.
  rewrite Hdays. unfold to_second. f_equal. f_equal.
  rewrite Z.sub_0_r, Z.add_0_r, <- Z.add_assoc, <- Z.add_assoc,
    (Z.add_assoc (_ * 3600)), Hclock.
  f_equal. unfold time.abs_days, time.sec_of_day, time.secondsPerDay.
  Z.div_mod_to_equations; lia.
Qed.
End rfc3339.

(** ** Status *)

Lemma Unmarshal_uint8_Marshal_uint t v :
  v < 2 ^ 8 -> json.Unmarshal_uint8 t (json.Marshal_uint v) = (v, None).
Proof.
  intros Hv. unfold json.Unmarshal_uint8, json.Marshal_uint.
  rewrite ParseUint_FormatUint by lia.
  destruct (N.ltb_spec v (2 ^ 8)); [reflexivity|lia].
Qed.

Lemma Status_UnmarshalJSON_in s0 v :
  v <= 2 -> Status.UnmarshalJSON s0 (json.Marshal_uint v) = (v, None).
Proof.
  intros Hv. unfold Status.UnmarshalJSON.
  rewrite Unmarshal_uint8_Marshal_uint by lia.
  unfold Status.inRange, Status.Occupied.
  destruct (N.leb_spec v 2); [reflexivity|lia].
Qed.

Lemma Status_UnmarshalJSON_out s0 v :
  2 < v < 2 ^ 8 ->
  Status.UnmarshalJSON s0 (json.Marshal_uint v) = (Status.Free, Some ErrOutOfRange).
Proof.
  intros Hv. unfold Status.UnmarshalJSON.
  rewrite Unmarshal_uint8_Marshal_uint by lia.
  unfold Status.inRange, Status.Occupied.
  destruct (N.leb_spec v 2); [lia|reflexivity].
Qed.

(** Shapes of literals that do not fit [uint8]. *)
Lemma not_uint8_large n : 2 ^ 8 <= n < 2 ^ 64 -> not_uint8 (strconv.FormatUint n 10).
Proof.
  intros Hn. unfold not_uint8. rewrite ParseUint_FormatUint by lia. lia.
Qed.

Lemma not_uint8_negative r : not_uint8 (String "-" r).
Proof. exact I. Qed.

(** C8. For every Status value -- the 256 values of a [uint8] and, in the
    model, every natural number -- the compact renderer [Status.String] yields
    "0", "1", "2" for 0, 1, 2 and "0" for any other value, and the pretty
    renderer [Status.Pretty] yields "Free", "Busy", "Occupied" for 0, 1, 2 and
    "Free" for any other value. Both are total functions to strings: they have
    no error result. *)
Theorem C8_renderers_total (s : Status.t) :
  Status.String s
  = (if s =? 0 then "0" else if s =? 1 then "1" else if s =? 2 then "2" else "0")
  /\ Status.Pretty s
     = (if s =? 0 then "Free" else if s =? 1 then "Busy"
        else if s =? 2 then "Occupied" else "Free").
Proof.
  destruct (N.leb_spec s 2) as [Hle|Hgt].
  - assert (Hs : s = 0 \/ s = 1 \/ s = 2) by lia.
    destruct Hs as [->|[->| ->]]; split; reflexivity.
  - unfold Status.String, Status.Pretty, Status.forceRange, Status.inRange,
      Status.Occupied.
    destruct (N.leb_spec s 2); [lia|]. cbn [negb].
    destruct (N.eqb_spec s 0); [lia|].
    destruct (N.eqb_spec s 1); [lia|].
    destruct (N.eqb_spec s 2); [lia|].
    split; reflexivity.
Qed.

(** C6. Decoding a Status from the number [v] (a [uint8], written as its JSON
    literal): for [v] in {0,1,2} it succeeds and assigns [v], and [v] is what
    [MarshalJSON] followed by [UnmarshalJSON] gives back; for any other [v] it
    fails with [ErrOutOfRange] and leaves the Status equal to [Free], whatever
    it was before. *)
Theorem C6_Status_decode (s0 : Status.t) (v : N) :
  v < 2 ^ 8 ->
  if v <=? 2
  then Status.UnmarshalJSON s0 (json.Marshal_uint v) = (v, None)
       /\ exists raw, Status.MarshalJSON v = Ok raw
                      /\ Status.UnmarshalJSON s0 raw = (v, None)
  else Status.UnmarshalJSON s0 (json.Marshal_uint v)
       = (Status.Free, Some ErrOutOfRange).
Proof.
  intros Hv. destruct (N.leb_spec v 2) as [Hle|Hgt].
  - split; [now apply Status_UnmarshalJSON_in|].
    exists (json.Marshal_uint v). split; [|now apply Status_UnmarshalJSON_in].
    unfold Status.MarshalJSON, Status.inRange, Status.Occupied.
    destruct (N.leb_spec v 2); [reflexivity|lia].
  - apply Status_UnmarshalJSON_out. lia.
Qed.

(** C6 at 1 (in range) and at 200 (out of range), on a receiver that was
    Occupied. *)
Lemma C6_witness :
  (Status.UnmarshalJSON Status.Occupied (json.JNumber "1") = (Status.Busy, None)
   /\ exists raw, Status.MarshalJSON Status.Busy = Ok raw
                  /\ Status.UnmarshalJSON Status.Occupied raw = (Status.Busy, None))
  /\ Status.UnmarshalJSON Status.Occupied (json.JNumber "200")
     = (Status.Free, Some ErrOutOfRange).
Proof.
  split.
  - exact (C6_Status_decode Status.Occupied 1 ltac:(reflexivity)).
  - exact (C6_Status_decode Status.Occupied 200 ltac:(reflexivity)).
Defined.

(** C10. A JSON number that is not read as an integer fitting [uint8] (256,
    -1, ...) makes [Status.UnmarshalJSON] fail with the decoder's
    [UnmarshalTypeError], not with [ErrOutOfRange], and leaves the receiver
    unchanged: the reset to [Free] does not happen. *)
Theorem C10_Status_decode_not_uint8 (s : Status.t) (lit : string) :
  not_uint8 lit ->
  Status.UnmarshalJSON s (json.JNumber lit)
  = (s, Some (UnmarshalTypeError ("number " ++ lit) "uint8")).
Proof.
  unfold not_uint8, Status.UnmarshalJSON, json.Unmarshal_uint8.
  destruct (strconv.ParseUint lit 10 64) as [n [e|]]; [reflexivity|].
  intros Hn. destruct (N.ltb_spec n (2 ^ 8)); [lia|reflexivity].
Qed.

(** C10 at the literals 256 and -1, on a receiver that was Busy. *)
Lemma C10_witness :
  Status.UnmarshalJSON Status.Busy (json.JNumber "256")
  = (Status.Busy, Some (UnmarshalTypeError "number 256" "uint8"))
  /\ Status.UnmarshalJSON Status.Busy (json.JNumber "-1")
     = (Status.Busy, Some (UnmarshalTypeError "number -1" "uint8")).
Proof.
  split.
  - exact (C10_Status_decode_not_uint8 Status.Busy "256"
             (not_uint8_large 256 ltac:(lia))).
  - exact (C10_Status_decode_not_uint8 Status.Busy "-1" (not_uint8_negative "1")).
Defined.

(** ** Resource: the two renderings *)

Lemma Status_String_values s :
  Status.String s = "0" \/ Status.String s = "1" \/ Status.String s = "2".
Proof.
  destruct (N.leb_spec s 2) as [Hle|Hgt].
  - assert (Hs : s = 0 \/ s = 1 \/ s = 2) by lia.
    destruct Hs as [->|[->| ->]]; auto.
  - left. unfold Status.String, Status.forceRange, Status.inRange, Status.Occupied.
    destruct (N.leb_spec s 2); [lia|reflexivity].
Qed.

Lemma verb_X_length id : id < 2 ^ 64 -> (1 <= String.length (fmt.verb_X id) <= 16)%nat.
Proof.
  intros Hid.
  pose proof (formatBits_length strconv.digit_upper 16 ltac:(lia) 64 id "" 16
                ltac:(lia) ltac:(exact Hid)) as H.
  cbn [String.length] in H. unfold fmt.verb_X. lia.
Qed.

Lemma verb_X_head id :
  id <> 0 -> id < 2 ^ 64 -> head (fmt.verb_X id) <> Some "0"%char.
Proof.
  intros H0 Hid.
  destruct (formatBits_head strconv.digit_upper 16 ltac:(lia) 64 id "" H0) as (d & Hd & Hh).
  - eapply N.lt_le_trans; [exact Hid|]. apply pow2_64_le_pow; lia.
  - unfold fmt.verb_X. rewrite Hh. intros [= E].
    now apply (digit_upper_nonzero d Hd).
Qed.

Lemma verb_016X_length id : id < 2 ^ 64 -> String.length (fmt.verb_016X id) = 16%nat.
Proof.
  intros Hid. unfold fmt.verb_016X, fmt.pad_left. rewrite digits.length_pad.
  pose proof (verb_X_length id Hid). lia.
Qed.

Lemma verb_016X_upper_hex id :
  id < 2 ^ 64 -> all_bytes is_upper_hex (fmt.verb_016X id) = true.
Proof.
  intros Hid. unfold fmt.verb_016X, fmt.pad_left.
  apply digits.all_bytes_pad; [reflexivity|]. now apply verb_X_upper_hex.
Qed.

Lemma is_inline_digit d : d < 10 -> is_inline (strconv.digit_lower d) = true.
Proof.
  revert d. apply (N_lt_cases _ 10). intros n Hn.
  do 10 (destruct n as [|n]; [reflexivity|]). lia.
Qed.

Lemma upper_hex_inline c : is_upper_hex c = true -> is_inline c = true.
Proof. unfold is_upper_hex, is_inline. lia. Qed.

Lemma Format_RFC3339_inline t : all_bytes is_inline (time.Format_RFC3339 t) = true.
Proof.
  unfold time.Format_RFC3339, time.format_seconds.
  repeat (rewrite all_bytes_app; apply andb_true_intro; split);
    try reflexivity;
    apply digits.appendInt_all; solve [reflexivity | apply is_inline_digit].
Qed.

(** C4. Serializing a Resource whose status is out of {0,1,2} fails: the
    result is an error and carries no JSON at all. The error is the
    [ErrOutOfRange] of [Status.MarshalJSON], as the encoder hands it on,
    wrapped in its [MarshalerError]. *)
Theorem C4_MarshalJSON_out_of_range (r : Resource.t) :
  Status.inRange (Resource.Status r) = false ->
  Resource.MarshalJSON r = Err (MarshalerError "resource.Status" ErrOutOfRange)
  /\ cause (MarshalerError "resource.Status" ErrOutOfRange) = ErrOutOfRange.
Proof.
  intros H. split; [|reflexivity].
  unfold Resource.MarshalJSON, Resource.json_Marshal, Status.MarshalJSON.
  cbn [Resource.tmp_Status]. now rewrite H.
Qed.

(** C4 at a Resource of status 3. *)
Lemma C4_witness :
  Resource.MarshalJSON (Resource.mk 5 "printer" 3 time.zero)
  = Err (MarshalerError "resource.Status" ErrOutOfRange)
  /\ cause (MarshalerError "resource.Status" ErrOutOfRange) = ErrOutOfRange.
Proof.
  exact (C4_MarshalJSON_out_of_range (Resource.mk 5 "printer" 3 time.zero)
           ltac:(reflexivity)).
Defined.

(** C2, as the claim states it, fails on the Resource of the specification's
    own example: the identifier 0x0123456789ABCDEF is emitted on 15 digits,
    without the leading zero. *)
Lemma C2_counterexample :
  exists ms,
    Resource.MarshalJSON example_resource = Ok (json.JObject ms)
    /\ member "id" ms = Some (json.JString false "123456789ABCDEF")
    /\ String.length "123456789ABCDEF" = 15%nat.
Proof. eexists. repeat split. Qed.

(** C2, amended. When [MarshalJSON] succeeds, the identifier field is a JSON
    string holding the upper-case hexadecimal numeral of the id written by
    [%X]: digits 0-9 and A-F only, no "0x" prefix, no padding (between 1 and
    16 digits, the first one not 0 unless the id is 0), and
    [ParseUint(_, 16, 64)] reads the id back from it. *)
Theorem C2_id_field_amended (r : Resource.t) (raw : json.value) :
  Resource.Id r < 2 ^ 64 ->
  Resource.MarshalJSON r = Ok raw ->
  exists ms s,
    raw = json.JObject ms
    /\ member "id" ms = Some (json.JString false s)
    /\ s = fmt.verb_X (Resource.Id r)
    /\ all_bytes is_upper_hex s = true
    /\ (1 <= String.length s <= 16)%nat
    /\ (Resource.Id r <> 0 -> head s <> Some "0"%char)
    /\ strconv.ParseUint s 16 64 = (Resource.Id r, None).
Proof.
  intros Hid. unfold Resource.MarshalJSON, Resource.json_Marshal.
  cbn [Resource.tmp_Status Resource.tmp_Since Resource.tmp_Id Resource.tmp_FriendlyName].
  destruct (Status.MarshalJSON (Resource.Status r)) as [vs|e]; [|discriminate].
  destruct (time.MarshalJSON (Resource.Since r)) as [vt|e]; [|discriminate].
  intros [= <-]. eexists. exists (fmt.verb_X (Resource.Id r)).
  split; [reflexivity|]. split.
  - cbn [member]. change (String.eqb "id" "id") with true. cbv iota.
    now rewrite Marshal_string_verb_X.
  - split; [reflexivity|].
    split; [now apply verb_X_upper_hex|].
    split; [now apply verb_X_length|].
    split; [intros H0; now apply verb_X_head|].
    now apply ParseUint_verb_X.
Qed.

(** The amended C2 at the id 0x1F. *)
Lemma C2_witness :
  exists ms s,
    json.JObject
      [("id", json.JString false "1F");
       ("friendlyName", json.JString false "printer");
       ("status", json.JNumber "2");
       ("since", json.JString false "0001-01-01T00:00:00Z")] = json.JObject ms
    /\ member "id" ms = Some (json.JString false s)
    /\ s = fmt.verb_X 31
    /\ all_bytes is_upper_hex s = true
    /\ (1 <= String.length s <= 16)%nat
    /\ (31 <> 0 -> head s <> Some "0"%char)
    /\ strconv.ParseUint s 16 64 = (31, None).
Proof.
  exact (C2_id_field_amended (Resource.mk 31 "printer" 2 time.zero) _
           ltac:(reflexivity) ltac:(reflexivity)).
Defined.

(** ** Resource: decoding *)

Lemma digit_val_hex c d :
  strconv.digit_val (N_of_ascii c) = Some d -> d < 16 -> is_hex c = true.
Proof.
  intros H Hd.
  destruct c as [[] [] [] [] [] [] [] []]; vm_compute in H; try discriminate;
    injection H as <-;
    first [reflexivity | exfalso; vm_compute in Hd; discriminate].
Qed.

Lemma parse_loop_not_hex cutoff maxVal s : forall n,
  all_bytes is_hex s = false ->
  exists v k, strconv.parse_loop 16 cutoff maxVal s n = (v, Some k).
Proof.
  induction s as [|c r IH]; intros n; cbn [all_bytes strconv.parse_loop];
    [discriminate|].
  intros H.
  destruct (strconv.digit_val (N_of_ascii c)) as [d|] eqn:E; [|eauto].
  destruct (N.leb_spec 16 d); [eauto|].
  rewrite (digit_val_hex c d E) in H by assumption. cbn [andb] in H.
  destruct (cutoff <=? n); [eauto|].
  destruct (_ || _); [eauto|]. now apply IH.
Qed.

(** A string with a byte that is not a hexadecimal digit is refused by
    [ParseUint(_, 16, 64)], with a [NumError]. *)
Lemma ParseUint_not_hex s :
  all_bytes is_hex s = false ->
  exists v k, strconv.ParseUint s 16 64 = (v, Some (NumError "ParseUint" s k)).
Proof.
  intros H. unfold strconv.ParseUint.
  destruct s as [|c r]; [discriminate|].
  destruct (parse_loop_not_hex (strconv.maxUint64 / 16 + 1) (2 ^ 64 - 1)
              (String c r) 0 H) as (v & k & ->).
  eauto.
Qed.

Section DecoderFacts.
Variable tu : time.Time -> json.value -> time.Time * option error.

Lemma decode_members_app pre : forall st m post,
  Resource.decode_members tu st (pre ++ m :: post)
  = match Resource.decode_members tu st pre with
    | Ok st' =>
        match Resource.decode_member tu st' m with
        | Ok st'' => Resource.decode_members tu st'' post
        | Err e => Err e
        end
    | Err e => Err e
    end.
Proof.
  induction pre as [|m0 pre IH]; intros st m post; cbn [app Resource.decode_members].
  - reflexivity.
  - destruct (Resource.decode_member tu st m0) as [st'|e]; [apply IH|reflexivity].
Qed.

(** A failure of [json.Unmarshal] leaves the receiver as it was. *)
Lemma UnmarshalJSON_decode_error r raw e :
  Resource.json_Unmarshal tu raw = Err e ->
  Resource.UnmarshalJSON tu r raw = (r, Some e).
Proof. intros H. unfold Resource.UnmarshalJSON. now rewrite H. Qed.

(** No member designates the field [f]. *)
Let absent (f : Resource.field) (ms : list (string * json.value)) : Prop :=
  present f (json.JObject ms) = false.

(** A field that no member designates keeps its value. *)
Lemma decode_members_absent ms : forall st st',
  Resource.decode_members tu st ms = Ok st' ->
  (absent Resource.FId ms -> Resource.tmp_Id (fst st') = Resource.tmp_Id (fst st))
  /\ (absent Resource.FFriendlyName ms ->
      Resource.tmp_FriendlyName (fst st') = Resource.tmp_FriendlyName (fst st))
  /\ (absent Resource.FStatus ms ->
      Resource.tmp_Status (fst st') = Resource.tmp_Status (fst st))
  /\ (absent Resource.FSince ms ->
      Resource.tmp_Since (fst st') = Resource.tmp_Since (fst st)).
Proof.
  unfold absent, present.
  induction ms as [|[key v] ms IH]; intros [tmp saved] st'.
  - cbn. intros [= <-]. repeat split; reflexivity.
  - cbn [Resource.decode_members Resource.decode_member existsb fst].
    destruct (Resource.field_of_key key) as [[]|].
    + destruct (Resource.decode_string (Resource.tmp_Id tmp) saved v) as [s saved'].
      intros H. destruct (IH _ _ H) as (H1 & H2 & H3 & H4). cbn [fst] in *.
      cbn [field_eqb orb]. repeat split; intros Ha;
        first [discriminate | rewrite H2 by assumption | rewrite H3 by assumption
               | rewrite H4 by assumption]; reflexivity.
    + destruct (Resource.decode_string (Resource.tmp_FriendlyName tmp) saved v)
        as [s saved'].
      intros H. destruct (IH _ _ H) as (H1 & H2 & H3 & H4). cbn [fst] in *.
      cbn [field_eqb orb]. repeat split; intros Ha;
        first [discriminate | rewrite H1 by assumption | rewrite H3 by assumption
               | rewrite H4 by assumption]; reflexivity.
    + destruct (Status.UnmarshalJSON (Resource.tmp_Status tmp) v) as [s [e|]];
        [discriminate|].
      intros H. destruct (IH _ _ H) as (H1 & H2 & H3 & H4). cbn [fst] in *.
      cbn [field_eqb orb]. repeat split; intros Ha;
        first [discriminate | rewrite H1 by assumption | rewrite H2 by assumption
               | rewrite H4 by assumption]; reflexivity.
    + destruct (tu (Resource.tmp_Since tmp) v) as [s [e|]]; [discriminate|].
      intros H. destruct (IH _ _ H) as (H1 & H2 & H3 & H4). cbn [fst] in *.
      cbn [field_eqb orb]. repeat split; intros Ha;
        first [discriminate | rewrite H1 by assumption | rewrite H2 by assumption
               | rewrite H3 by assumption]; reflexivity.
    + intros H. cbn [orb]. exact (IH _ _ H).
Qed.

(** After a successful [json.Unmarshal], the fields of the temporary that no
    member designates have their zero value. *)
Lemma json_Unmarshal_absent raw tmp :
  Resource.json_Unmarshal tu raw = Ok tmp ->
  (present Resource.FId raw = false -> Resource.tmp_Id tmp = "")
  /\ (present Resource.FFriendlyName raw = false -> Resource.tmp_FriendlyName tmp = "")
  /\ (present Resource.FStatus raw = false -> Resource.tmp_Status tmp = Status.Free)
  /\ (present Resource.FSince raw = false -> Resource.tmp_Since tmp = time.zero).
Proof.
  unfold Resource.json_Unmarshal.
  destruct raw as [| | | | |ms]; try discriminate.
  - intros [= <-]. repeat split; reflexivity.
  - destruct (Resource.decode_members tu _ ms) as [[tmp' [e|]]|e] eqn:E;
      try discriminate.
    intros [= <-]. exact (decode_members_absent ms _ _ E).
Qed.

(** What [UnmarshalJSON] does once [json.Unmarshal] has succeeded. *)
Lemma UnmarshalJSON_decoded r raw tmp :
  Resource.json_Unmarshal tu raw = Ok tmp ->
  Resource.UnmarshalJSON tu r raw
  = let r' := Resource.mk (Resource.Id r) (Resource.tmp_FriendlyName tmp)
                (Resource.tmp_Status tmp) (Resource.tmp_Since tmp) in
    match strconv.ParseUint
            (if Nat.eqb (String.length (Resource.tmp_Id tmp)) 0 then "0"
             else Resource.tmp_Id tmp) 16 64 with
    | (_, Some err) => (r', Some err)
    | (id, None) =>
        (Resource.mk id (Resource.tmp_FriendlyName tmp) (Resource.tmp_Status tmp)
           (Resource.tmp_Since tmp), None)
    end.
Proof.
  intros H. unfold Resource.UnmarshalJSON. rewrite H. cbv zeta.
  destruct (strconv.ParseUint _ 16 64) as [id [e|]]; reflexivity.
Qed.
End DecoderFacts.

(** ** Resource: the claims on [UnmarshalJSON] *)



Section DecoderId.
Variable tu : time.Time -> json.value -> time.Time * option error.

(** After a successful [json.Unmarshal], the identifier of the temporary is
    the string of the last member that designates it. *)
Lemma json_Unmarshal_id pre key e s post tmp :
  Resource.field_of_key key = Some Resource.FId ->
  present Resource.FId (json.JObject post) = false ->
  Resource.json_Unmarshal tu (json.JObject (pre ++ (key, json.JString e s) :: post))
  = Ok tmp ->
  Resource.tmp_Id tmp = s.
Proof.
  intros Hkey Hpost. unfold Resource.json_Unmarshal. rewrite decode_members_app.
  destruct (Resource.decode_members tu _ pre) as [[tmp0 saved]|e0]; [|discriminate].
  cbn [Resource.decode_member]. rewrite Hkey. cbn [Resource.decode_string].
  destruct (Resource.decode_members tu _ post) as [[tmp' [e'|]]|e'] eqn:E;
    try discriminate.
  intros [= <-].
  destruct (decode_members_absent tu post _ _ E) as (Hid & _).
  exact (Hid Hpost).
Qed.

End DecoderId.

(** C5, as the claim states it, fails: the input [{"status": 3}] is a well
    formed structured input that names neither the friendlyName nor since,
    and on a Resource whose fields were set [UnmarshalJSON] leaves both as
    they were (the call fails before any field is assigned). *)
Lemma C5_counterexample :
  let r := Resource.mk 7 "old name" Status.Busy (time.Date 2006 1 2 15 4 5 0) in
  let raw := json.JObject [("status", json.JNumber "3")] in
  present Resource.FFriendlyName raw = false
  /\ present Resource.FSince raw = false
  /\ Resource.UnmarshalJSON time.UnmarshalJSON_RFC3339 r raw = (r, Some ErrOutOfRange)
  /\ Resource.FriendlyName r <> ""
  /\ Resource.Since r <> time.zero.
Proof.
  cbv zeta. split; [reflexivity|]. split; [reflexivity|]. split; [reflexivity|].
  split; discriminate.
Qed.

(** C5, amended. For every input that [json.Unmarshal] decodes into the
    temporary without error, [UnmarshalJSON] gives the fields friendlyName,
    status and since that no member designates their zero value; when no
    member designates the identifier, or the last one that does holds the
    empty string, the id is 0 and there is no error; when the last member
    that designates the identifier holds a string with a byte that is not a
    hexadecimal digit, the call fails with the [NumError] of [ParseUint] on
    that string, an error of the ParseError kind. *)
Theorem C5_partial_input_amended
  (tu : time.Time -> json.value -> time.Time * option error)
  (r : Resource.t) (raw : json.value) (tmp : Resource.tmpResource) :
  Resource.json_Unmarshal tu raw = Ok tmp ->
  let r' := fst (Resource.UnmarshalJSON tu r raw) in
  let err := snd (Resource.UnmarshalJSON tu r raw) in
  (present Resource.FFriendlyName raw = false -> Resource.FriendlyName r' = "")
  /\ (present Resource.FStatus raw = false -> Resource.Status r' = Status.Free)
  /\ (present Resource.FSince raw = false -> Resource.Since r' = time.zero)
  /\ (present Resource.FId raw = false -> Resource.Id r' = 0 /\ err = None)
  /\ (forall pre key e s post,
        raw = json.JObject (pre ++ (key, json.JString e s) :: post) ->
        Resource.field_of_key key = Some Resource.FId ->
        present Resource.FId (json.JObject post) = false ->
        (s = "" -> Resource.Id r' = 0 /\ err = None)
        /\ (all_bytes is_hex s = false ->
            exists k, err = Some (NumError "ParseUint" s k)
                      /\ is_ParseError (NumError "ParseUint" s k) = true)).
Proof.
  intros Hdec r' err. subst r' err.
  destruct (json_Unmarshal_absent tu raw tmp Hdec) as (Hid & Hname & Hstatus & Hsince).
  assert (Hempty : Resource.tmp_Id tmp = "" ->
            Resource.Id (fst (Resource.UnmarshalJSON tu r raw)) = 0
            /\ snd (Resource.UnmarshalJSON tu r raw) = None).
  { intros E. rewrite (UnmarshalJSON_decoded tu r raw tmp Hdec), E. cbv zeta.
    split; reflexivity. }
  split; [|split; [|split; [|split]]].
  - intros Ha. rewrite (UnmarshalJSON_decoded tu r raw tmp Hdec). cbv zeta.
    destruct (strconv.ParseUint _ 16 64) as [id [e|]]; cbn; auto.
  - intros Ha. rewrite (UnmarshalJSON_decoded tu r raw tmp Hdec). cbv zeta.
    destruct (strconv.ParseUint _ 16 64) as [id [e|]]; cbn; auto.
  - intros Ha. rewrite (UnmarshalJSON_decoded tu r raw tmp Hdec). cbv zeta.
    destruct (strconv.ParseUint _ 16 64) as [id [e|]]; cbn; auto.
  - intros Ha. apply Hempty. now apply Hid.
  - intros pre key e s post Hraw Hkey Hpost.
    assert (Hs : Resource.tmp_Id tmp = s).
    { rewrite Hraw in Hdec. exact (json_Unmarshal_id tu pre key e s post tmp Hkey Hpost Hdec). }
    split.
    + intros E. apply Hempty. now rewrite Hs.
    + intros Hhex. rewrite (UnmarshalJSON_decoded tu r raw tmp Hdec), Hs. cbv zeta.
      destruct s as [|c s]; [discriminate|]. cbn [String.length Nat.eqb].
      destruct (ParseUint_not_hex (String c s) Hhex) as (v & k & ->).
      exists k. split; reflexivity.
Qed.

(** The amended C5 on a Resource whose four fields were set, at three inputs:
    one that names the friendlyName only, one whose identifier is the empty
    string and one whose identifier is "zz". *)
Lemma C5_witness :
  let tu := time.UnmarshalJSON_RFC3339 in
  let r := Resource.mk 7 "old name" Status.Busy (time.Date 2006 1 2 15 4 5 0) in
  let a := Resource.UnmarshalJSON tu r
             (json.JObject [("friendlyName", json.JString false "printer")]) in
  let b := Resource.UnmarshalJSON tu r
             (json.JObject ([("status", json.JNumber "2")]
                            ++ ("id", json.JString false "") :: [])) in
  let c := Resource.UnmarshalJSON tu r
             (json.JObject ([("friendlyName", json.JString false "printer")]
                            ++ ("id", json.JString false "zz") :: [])) in
  (Resource.Status (fst a) = Status.Free
   /\ Resource.Since (fst a) = time.zero
   /\ Resource.Id (fst a) = 0 /\ snd a = None)
  /\ (Resource.FriendlyName (fst b) = ""
      /\ Resource.Since (fst b) = time.zero
      /\ Resource.Id (fst b) = 0 /\ snd b = None)
  /\ (Resource.Status (fst c) = Status.Free
      /\ Resource.Since (fst c) = time.zero
      /\ exists k, snd c = Some (NumError "ParseUint" "zz" k)
                   /\ is_ParseError (NumError "ParseUint" "zz" k) = true).
Proof.
  cbv zeta.
  pose proof (C5_partial_input_amended time.UnmarshalJSON_RFC3339
                (Resource.mk 7 "old name" Status.Busy (time.Date 2006 1 2 15 4 5 0))
                (json.JObject [("friendlyName", json.JString false "printer")])
                (Resource.mkTmp "" "printer" Status.Free time.zero)
                eq_refl) as (_ & A2 & A3 & A4 & _).
  pose proof (C5_partial_input_amended time.UnmarshalJSON_RFC3339
                (Resource.mk 7 "old name" Status.Busy (time.Date 2006 1 2 15 4 5 0))
                (json.JObject ([("status", json.JNumber "2")]
                               ++ ("id", json.JString false "") :: []))
                (Resource.mkTmp "" "" Status.Occupied time.zero)
                eq_refl) as (B1 & _ & B3 & _ & B5).
  pose proof (C5_partial_input_amended time.UnmarshalJSON_RFC3339
                (Resource.mk 7 "old name" Status.Busy (time.Date 2006 1 2 15 4 5 0))
                (json.JObject ([("friendlyName", json.JString false "printer")]
                               ++ ("id", json.JString false "zz") :: []))
                (Resource.mkTmp "zz" "printer" Status.Free time.zero)
                eq_refl) as (_ & C2 & C3 & _ & C5).
  split; [|split].
  - exact (conj (A2 eq_refl) (conj (A3 eq_refl) (A4 eq_refl))).
  - exact (conj (B1 eq_refl)
             (conj (B3 eq_refl)
                (proj1 (B5 [("status", json.JNumber "2")] "id" false "" []
                          eq_refl eq_refl eq_refl) eq_refl))).
  - exact (conj (C2 eq_refl)
             (conj (C3 eq_refl)
                (proj2 (C5 [("friendlyName", json.JString false "printer")] "id" false
                          "zz" [] eq_refl eq_refl eq_refl) eq_refl))).
Defined.

(** C3, as the claim states it, fails: on a Resource whose status is Busy, the
    input [{"status": 3}] makes [UnmarshalJSON] return [ErrOutOfRange] and the
    status is still Busy, not Free. *)
Lemma C3_counterexample :
  Resource.UnmarshalJSON time.UnmarshalJSON_RFC3339
    (Resource.mk 7 "printer" Status.Busy time.zero)
    (json.JObject [("status", json.JNumber "3")])
  = (Resource.mk 7 "printer" Status.Busy time.zero, Some ErrOutOfRange)
  /\ Status.Busy <> Status.Free.
Proof. split; [reflexivity|discriminate]. Qed.

(** C3, amended. When the status member of the input carries an integer of
    3..255 and the members before it decode, [UnmarshalJSON] fails with
    [ErrOutOfRange] and leaves the receiver as it was, in all four fields: the
    status that is reset to [Free] is the one of the temporary, which is
    dropped. The resulting status is [Free] only if it was before, as it is
    for a newly allocated Resource. *)
Theorem C3_out_of_range_amended
  (tu : time.Time -> json.value -> time.Time * option error)
  (r : Resource.t) (pre post : list (string * json.value)) (key : string) (v : N)
  (st : Resource.tmpResource * option error) :
  Resource.field_of_key key = Some Resource.FStatus ->
  2 < v < 2 ^ 8 ->
  Resource.decode_members tu (Resource.mkTmp "" "" Status.Free time.zero, None) pre
  = Ok st ->
  Resource.UnmarshalJSON tu r
    (json.JObject (pre ++ (key, json.Marshal_uint v) :: post))
  = (r, Some ErrOutOfRange)
  /\ Status.UnmarshalJSON (Resource.tmp_Status (fst st)) (json.Marshal_uint v)
     = (Status.Free, Some ErrOutOfRange)
  /\ Resource.UnmarshalJSON tu Resource.zero
       (json.JObject (pre ++ (key, json.Marshal_uint v) :: post))
     = (Resource.zero, Some ErrOutOfRange).
Proof.
  intros Hkey Hv Hpre.
  assert (Hdec : Resource.json_Unmarshal tu
                   (json.JObject (pre ++ (key, json.Marshal_uint v) :: post))
                 = Err ErrOutOfRange).
  { unfold Resource.json_Unmarshal. rewrite decode_members_app, Hpre.
    destruct st as [tmp saved]. cbn [Resource.decode_member]. rewrite Hkey.
    now rewrite Status_UnmarshalJSON_out. }
  split; [now apply UnmarshalJSON_decode_error|].
  split; [now apply Status_UnmarshalJSON_out|].
  now apply UnmarshalJSON_decode_error.
Qed.

(** The amended C3 at an input whose status is 200, after a friendlyName and
    before an id. *)
Lemma C3_witness :
  let r := Resource.mk 7 "printer" Status.Busy time.zero in
  let raw :=
    json.JObject
      ([("friendlyName", json.JString false "My Resource")]
       ++ ("Status", json.Marshal_uint 200)
       :: [("id", json.JString false "1F")]) in
  Resource.UnmarshalJSON time.UnmarshalJSON_RFC3339 r raw = (r, Some ErrOutOfRange)
  /\ Status.UnmarshalJSON Status.Free (json.Marshal_uint 200)
     = (Status.Free, Some ErrOutOfRange)
  /\ Resource.UnmarshalJSON time.UnmarshalJSON_RFC3339 Resource.zero raw
     = (Resource.zero, Some ErrOutOfRange).
Proof.
  exact (C3_out_of_range_amended time.UnmarshalJSON_RFC3339
           (Resource.mk 7 "printer" Status.Busy time.zero)
           [("friendlyName", json.JString false "My Resource")]
           [("id", json.JString false "1F")] "Status" 200
           (Resource.mkTmp "" "My Resource" Status.Free time.zero, None)
           ltac:(reflexivity) ltac:(lia) ltac:(reflexivity)).
Defined.

(** ** Resource: the round trip *)

(** C1, as the claim states it, fails. A Resource in range whose name is not
    valid UTF-8 (here the single byte FF) is serialized with the name coerced
    to U+FFFD, which is what deserialization gives back; and a Resource in
    range whose timestamp lies in year 10000 is not serialized at all. *)
Lemma C1_counterexample :
  let R := Resource.mk 0 (String (ascii_of_N 255) "") Status.Free time.zero in
  let R' := Resource.mk 0 utf8.RuneError Status.Free time.zero in
  Status.inRange (Resource.Status R) = true
  /\ (exists raw,
        Resource.MarshalJSON R = Ok raw
        /\ Resource.UnmarshalJSON time.UnmarshalJSON_RFC3339 Resource.zero raw
           = (R', None))
  /\ R' <> R
  /\ Resource.MarshalJSON
       (Resource.mk 0 "" Status.Free (time.Date 10000 1 1 0 0 0 0))
     = Err (MarshalerError "time.Time"
              (TimeError "Time.MarshalJSON: year outside of range [0,9999]")).
Proof.
  cbv zeta. split; [reflexivity|]. split.
  - eexists. split; reflexivity.
  - split; [discriminate|reflexivity].
Qed.

(** C1, amended. For every Resource whose status is in {0,1,2}, whose
    friendlyName is valid UTF-8 and whose since has a year in 0..9999 (the
    id being a [uint64]), [MarshalJSON] succeeds and [UnmarshalJSON] applied
    to its output, on any receiver, succeeds and yields a Resource equal to the
    original in its four fields. [time.Time]'s [UnmarshalJSON] is any function
    that reads back what [time.Time]'s [MarshalJSON] writes. *)
Theorem C1_round_trip_amended
  (tu : time.Time -> json.value -> time.Time * option error)
  (R r0 : Resource.t) :
  (forall t0 t v, time.MarshalJSON t = Ok v -> tu t0 v = (t, None)) ->
  Status.inRange (Resource.Status R) = true ->
  Resource.Id R < 2 ^ 64 ->
  utf8.ValidString (Resource.FriendlyName R) = true ->
  (0 <= time.Year (Resource.Since R) <= 9999)%Z ->
  exists raw,
    Resource.MarshalJSON R = Ok raw
    /\ Resource.UnmarshalJSON tu r0 raw = (R, None).
Proof.
  intros Htu Hs Hid Hname Hyear. destruct R as [id name status since].
  cbn [Resource.Status Resource.Id Resource.FriendlyName Resource.Since] in *.
  assert (Hvt : time.MarshalJSON since
                = Ok (json.JString false (time.Format_RFC3339Nano since))).
  { unfold time.MarshalJSON.
    destruct (Z.ltb_spec (time.Year since) 0); [lia|].
    destruct (Z.leb_spec 10000 (time.Year since)); [lia|]. reflexivity. }
  assert (Hstatus : status <= 2) by (unfold Status.inRange, Status.Occupied in Hs; lia).
  eexists. split.
  - unfold Resource.MarshalJSON, Resource.json_Marshal, Status.MarshalJSON.
    cbv zeta.
    cbn [Resource.tmp_Status Resource.tmp_Since Resource.tmp_Id
           Resource.tmp_FriendlyName Resource.Status Resource.Id
           Resource.FriendlyName Resource.Since].
    rewrite Hs, Hvt. cbn [negb]. reflexivity.
  - assert (Hdec : Resource.json_Unmarshal tu
                     (json.JObject
                        [("id", json.Marshal_string (fmt.verb_X id));
                         ("friendlyName", json.Marshal_string name);
                         ("status", json.Marshal_uint status);
                         ("since", json.JString false (time.Format_RFC3339Nano since))])
                   = Ok (Resource.mkTmp (fmt.verb_X id) name status since)).
    { unfold Resource.json_Unmarshal, json.Marshal_string.
      rewrite (coerce_valid name Hname).
      rewrite (coerce_valid (fmt.verb_X id))
        by (apply ValidString_ascii;
            eapply all_bytes_impl; [apply upper_hex_ascii|];
            now apply verb_X_upper_hex).
      cbn [Resource.decode_members].
      unfold Resource.decode_member at 1.
      change (Resource.field_of_key "id") with (Some Resource.FId).
      cbn [Resource.decode_string Resource.tmp_Id Resource.tmp_FriendlyName
             Resource.tmp_Status Resource.tmp_Since].
      unfold Resource.decode_member at 1.
      change (Resource.field_of_key "friendlyName") with (Some Resource.FFriendlyName).
      cbn [Resource.decode_string Resource.tmp_Id Resource.tmp_FriendlyName
             Resource.tmp_Status Resource.tmp_Since].
      unfold Resource.decode_member at 1.
      change (Resource.field_of_key "status") with (Some Resource.FStatus).
      cbn [Resource.tmp_Id Resource.tmp_FriendlyName
             Resource.tmp_Status Resource.tmp_Since].
      rewrite Status_UnmarshalJSON_in by assumption.
      unfold Resource.decode_member at 1.
      change (Resource.field_of_key "since") with (Some Resource.FSince).
      cbn [Resource.tmp_Id Resource.tmp_FriendlyName
             Resource.tmp_Status Resource.tmp_Since].
      rewrite (Htu _ _ _ Hvt). reflexivity. }
    rewrite (UnmarshalJSON_decoded tu r0 _ _ Hdec). cbv zeta.
    cbn [Resource.tmp_Id Resource.tmp_FriendlyName Resource.tmp_Status
           Resource.tmp_Since].
    pose proof (verb_X_length id Hid) as Hlen.
    destruct (Nat.eqb_spec (String.length (fmt.verb_X id)) 0); [lia|].
    rewrite ParseUint_verb_X by assumption. reflexivity.
Qed.

(** The amended C1 at the Resource of the specification's example, with the
    RFC 3339 reader of this file. *)
Lemma C1_witness :
  exists raw,
    Resource.MarshalJSON example_resource = Ok raw
    /\ Resource.UnmarshalJSON time.UnmarshalJSON_RFC3339
         (Resource.mk 7 "old name" Status.Occupied time.zero) raw
       = (example_resource, None).
Proof.
  exact (C1_round_trip_amended time.UnmarshalJSON_RFC3339 example_resource
           (Resource.mk 7 "old name" Status.Occupied time.zero)
           rfc3339.UnmarshalJSON_MarshalJSON
           ltac:(reflexivity) ltac:(reflexivity) ltac:(reflexivity)
           ltac:(split; discriminate)).
Defined.

(** * The server: [server/current.go] *)

(** ** strings.Split *)

Lemma Split_nonempty s sep : strings.Split s sep <> [].
Proof.
  destruct s as [|c r]; cbn [strings.Split]; [discriminate|].
  destruct (Ascii.eqb c sep); [discriminate|].
  destruct (strings.Split r sep); discriminate.
Qed.

Lemma Split_no_slash s : no_slash s = true -> strings.Split s "/" = [s].
Proof.
  unfold no_slash. induction s as [|c r IH]; cbn [all_bytes strings.Split];
    [reflexivity|].
  intros [Hc Hr]%andb_prop. apply negb_true_iff in Hc. rewrite Hc, (IH Hr).
  reflexivity.
Qed.

(** Splitting distributes over a slash. *)
Lemma Split_app p q :
  strings.Split (p ++ String "/" q) "/"
  = (strings.Split p "/" ++ strings.Split q "/")%list.
Proof.
  induction p as [|c p IH]; cbn [append strings.Split].
  - reflexivity.
  - destruct (Ascii.eqb c "/").
    + now rewrite IH.
    + rewrite IH. pose proof (Split_nonempty p "/") as Hne.
      destruct (strings.Split p "/") as [|x xs]; [congruence|]. reflexivity.
Qed.

(** ** idsFromPath *)

Lemma idsFromPath_loop_app path l1 : forall l2 ids,
  server.idsFromPath_loop path (l1 ++ l2) ids
  = match server.idsFromPath_loop path l1 ids with
    | (ids', None) => server.idsFromPath_loop path l2 ids'
    | (ids', Some e) => (ids', Some e)
    end.
Proof.
  induction l1 as [|s l1 IH]; intros l2 ids; cbn [app server.idsFromPath_loop].
  - reflexivity.
  - destruct (String.eqb s ""); [apply IH|].
    destruct (strconv.ParseUint s 16 64) as [id [e|]]; [reflexivity|apply IH].
Qed.

(** When the loop succeeds, the path (which only goes in the error) does not
    matter. *)
Lemma idsFromPath_loop_path p1 p2 l : forall ids ids',
  server.idsFromPath_loop p1 l ids = (ids', None) ->
  server.idsFromPath_loop p2 l ids = (ids', None).
Proof.
  induction l as [|s l IH]; intros ids ids'; cbn [server.idsFromPath_loop].
  - trivial.
  - destruct (String.eqb s ""); [apply IH|].
    destruct (strconv.ParseUint s 16 64) as [id [e|]]; [discriminate|apply IH].
Qed.

Section Keys.
Variable key : N -> string.
Variable ok : N -> Prop.
Hypothesis key_parse : forall id, ok id -> strconv.ParseUint (key id) 16 64 = (id, None).
Hypothesis key_no_slash : forall id, ok id -> no_slash (key id) = true.

Lemma key_nonempty id : ok id -> String.eqb (key id) "" = false.
Proof.
  intros H. apply String.eqb_neq. intros E.
  pose proof (key_parse id H) as Hp. rewrite E in Hp. discriminate.
Qed.

Lemma idsFromPath_loop_keys path ids : forall acc,
  Forall ok ids ->
  server.idsFromPath_loop path (map key ids) acc = ((acc ++ ids)%list, None).
Proof.
  induction ids as [|id ids IH]; intros acc Hok; cbn [map server.idsFromPath_loop].
  - now rewrite app_nil_r.
  - inversion Hok as [|? ? Hid Hrest]; subst.
    rewrite (key_nonempty id Hid), (key_parse id Hid), (IH _ Hrest).
    now rewrite <- List.app_assoc.
Qed.

Lemma Split_key_path k ids :
  no_slash k = true -> Forall ok ids ->
  strings.Split (k ++ path_of key ids) "/" = k :: map key ids.
Proof.
  revert k. induction ids as [|id ids IH]; intros k Hk Hok; cbn [path_of map].
  - rewrite app_empty_r. now apply Split_no_slash.
  - inversion Hok as [|? ? Hid Hrest]; subst.
    rewrite Split_app, (Split_no_slash k Hk), (IH _ (key_no_slash id Hid) Hrest).
    reflexivity.
Qed.

Lemma idsFromPath_path_of ids :
  Forall ok ids -> server.idsFromPath (path_of key ids) = (ids, None).
Proof.
  intros Hok. unfold server.idsFromPath. destruct ids as [|id ids].
  - reflexivity.
  - cbn [path_of strings.Split]. change (Ascii.eqb "/" "/") with true. cbv iota.
    inversion Hok as [|? ? Hid Hrest]; subst.
    rewrite (Split_key_path (key id) ids (key_no_slash id Hid) Hrest).
    cbn [server.idsFromPath_loop String.eqb].
    exact (idsFromPath_loop_keys _ (id :: ids) [] Hok).
Qed.
End Keys.

(** ** The three renderings of an id, as path segments *)

Lemma is_hex_digit_lower d : d < 16 -> is_hex (strconv.digit_lower d) = true.
Proof.
  revert d. apply (N_lt_cases _ 16). intros n Hn.
  do 16 (destruct n as [|n]; [reflexivity|]). lia.
Qed.

Lemma is_hex_no_slash s : all_bytes is_hex s = true -> no_slash s = true.
Proof.
  apply all_bytes_impl. intros c Hc.
  destruct (Ascii.eqb_spec c "/") as [->|]; [discriminate Hc|reflexivity].
Qed.

Lemma upper_hex_is_hex s : all_bytes is_upper_hex s = true -> all_bytes is_hex s = true.
Proof. apply all_bytes_impl. intros c. unfold is_upper_hex, is_hex. lia. Qed.

Lemma FormatUint16_hex id : id < 2 ^ 64 -> all_bytes is_hex (strconv.FormatUint id 16) = true.
Proof.
  intros Hid. apply formatBits_all.
  - lia.
  - apply is_hex_digit_lower.
  - eapply N.lt_le_trans; [exact Hid|]. apply pow2_64_le_pow; lia.
  - reflexivity.
Qed.

(** [ParseUint(_, 16, 64)] reads back the key [FormatUint(id, 16)]. *)
Lemma ParseUint_FormatUint16 id :
  id < 2 ^ 64 -> strconv.ParseUint (strconv.FormatUint id 16) 16 64 = (id, None).
Proof.
  intros Hid. unfold strconv.ParseUint.
  pose proof (formatBits_nonempty strconv.digit_lower 16 64 id "") as Hne.
  fold (strconv.FormatUint id 16) in Hne.
  destruct (strconv.FormatUint id 16) as [|c r] eqn:E; [congruence|]. rewrite <- E.
  unfold strconv.FormatUint.
  rewrite (parse_loop_formatBits strconv.digit_lower 16 (2 ^ 64 - 1)).
  - reflexivity.
  - lia.
  - intros d Hd. apply digit_val_lower. lia.
  - unfold strconv.maxUint64. lia.
  - lia.
  - eapply N.lt_le_trans; [exact Hid|]. apply pow2_64_le_pow; lia.
Qed.

(** Leading zeros do not change what the loop of [ParseUint] reads. *)
Lemma parse_loop_pad base cutoff maxVal s n :
  2 <= base -> 1 <= cutoff ->
  strconv.parse_loop base cutoff maxVal (fmt.pad n "0" s) 0
  = strconv.parse_loop base cutoff maxVal s 0.
Proof.
  intros Hb Hc. induction n as [|n IH]; [reflexivity|].
  cbn [fmt.pad strconv.parse_loop].
  change (strconv.digit_val (N_of_ascii "0")) with (Some 0). cbv iota beta zeta.
  destruct (N.leb_spec base 0); [lia|].
  destruct (N.leb_spec cutoff 0); [lia|].
  rewrite N.mul_0_l, N.add_0_r, N.Div0.mod_0_l.
  change (0 <? 0) with false. cbn [orb].
  destruct (N.ltb_spec maxVal 0); [lia|]. exact IH.
Qed.

Lemma ParseUint_verb_016X id :
  id < 2 ^ 64 -> strconv.ParseUint (fmt.verb_016X id) 16 64 = (id, None).
Proof.
  intros Hid. pose proof (ParseUint_verb_X id Hid) as Hx.
  pose proof (verb_X_length id Hid) as Hlen.
  unfold fmt.verb_016X, fmt.pad_left.
  destruct (fmt.verb_X id) as [|c r] eqn:E; [cbn in Hlen; lia|].
  revert Hx. unfold strconv.ParseUint.
  set (n := (16 - String.length (String c r))%nat).
  replace (match fmt.pad n "0" (String c r) with
           | "" => (0, Some (NumError "ParseUint" (fmt.pad n "0" (String c r)) ErrSyntax))
           | String _ _ =>
               match strconv.parse_loop 16 (strconv.maxUint64 / 16 + 1) (2 ^ 64 - 1)
                       (fmt.pad n "0" (String c r)) 0 with
               | (v, Some k) =>
                   (v, Some (NumError "ParseUint" (fmt.pad n "0" (String c r)) k))
               | (v, None) => (v, None)
               end
           end)
    with (match strconv.parse_loop 16 (strconv.maxUint64 / 16 + 1) (2 ^ 64 - 1)
                  (fmt.pad n "0" (String c r)) 0 with
          | (v, Some k) => (v, Some (NumError "ParseUint" (fmt.pad n "0" (String c r)) k))
          | (v, None) => (v, None)
          end) by (destruct n; reflexivity).
  rewrite parse_loop_pad by (vm_compute; discriminate).
  destruct (strconv.parse_loop _ _ _ (String c r) 0) as [v [k|]]; [discriminate|].
  trivial.
Qed.

(** X1. Storage keys read back: a path made of the keys
    [strconv.FormatUint(id, 16)] under which [getResource] looks the ids up
    yields exactly these ids, in order, and no error. *)
Theorem idsFromPath_keys (ids : list N) :
  Forall (fun id => id < 2 ^ 64) ids ->
  server.idsFromPath (path_of (fun id => strconv.FormatUint id 16) ids) = (ids, None).
Proof.
  apply idsFromPath_path_of.
  - apply ParseUint_FormatUint16.
  - intros id Hid. apply is_hex_no_slash. now apply FormatUint16_hex.
Qed.

(** X1 at the ids 0x1F and 0. *)
Lemma idsFromPath_keys_witness : server.idsFromPath "/1f/0" = ([31; 0], None).
Proof.
  apply (idsFromPath_keys [31; 0]). repeat constructor.
Defined.

(** X2. The identifier as [MarshalJSON] writes it ([%X]) and as [String]
    writes it ([%016X]) is accepted in the path as well, and designates the
    same id. *)
Theorem idsFromPath_renderings (ids : list N) :
  Forall (fun id => id < 2 ^ 64) ids ->
  server.idsFromPath (path_of fmt.verb_X ids) = (ids, None)
  /\ server.idsFromPath (path_of fmt.verb_016X ids) = (ids, None).
Proof.
  intros Hids. split.
  - revert Hids. apply idsFromPath_path_of.
    + apply ParseUint_verb_X.
    + intros id Hid. apply is_hex_no_slash, upper_hex_is_hex. now apply verb_X_upper_hex.
  - revert Hids. apply idsFromPath_path_of.
    + apply ParseUint_verb_016X.
    + intros id Hid. apply is_hex_no_slash, upper_hex_is_hex.
      now apply verb_016X_upper_hex.
Qed.

(** X2 at the id of the specification's example. *)
Lemma idsFromPath_renderings_witness :
  server.idsFromPath "/123456789ABCDEF" = ([0x0123456789ABCDEF], None)
  /\ server.idsFromPath "/0123456789ABCDEF" = ([0x0123456789ABCDEF], None).
Proof.
  apply (idsFromPath_renderings [0x0123456789ABCDEF]). repeat constructor.
Defined.

(** X3. A segment with a byte that is not a hexadecimal digit stops
    [idsFromPath]: the error carries the whole path and the [NumError] of
    [ParseUint] on that segment, and the ids returned with it are those of the
    segments before it; what follows the segment is not looked at. *)
Theorem idsFromPath_bad_segment (p bad rest : string) (ids : list N) :
  server.idsFromPath p = (ids, None) ->
  no_slash bad = true ->
  all_bytes is_hex bad = false ->
  exists k,
    server.idsFromPath (p ++ "/" ++ bad ++ "/" ++ rest)
    = (ids, Some (server.ErrorParsingIds (p ++ "/" ++ bad ++ "/" ++ rest)
                    (NumError "ParseUint" bad k)))
    /\ server.idsFromPath (p ++ "/" ++ bad)
       = (ids, Some (server.ErrorParsingIds (p ++ "/" ++ bad)
                       (NumError "ParseUint" bad k))).
Proof.
  intros Hp Hslash Hhex.
  destruct (ParseUint_not_hex bad Hhex) as (v & k & Hk). exists k.
  assert (Hne : String.eqb bad "" = false).
  { apply String.eqb_neq. intros ->. discriminate Hhex. }
  unfold server.idsFromPath in *. cbn [append]. split.
  - rewrite Split_app, Split_app, (Split_no_slash bad Hslash), idsFromPath_loop_app.
    rewrite (idsFromPath_loop_path _ _ _ _ _ Hp).
    cbn [app server.idsFromPath_loop]. now rewrite Hne, Hk.
  - rewrite Split_app, (Split_no_slash bad Hslash), idsFromPath_loop_app.
    rewrite (idsFromPath_loop_path _ _ _ _ _ Hp).
    cbn [server.idsFromPath_loop]. now rewrite Hne, Hk.
Qed.

(** X3 at the path [/1f/zz/5]. *)
Lemma idsFromPath_bad_segment_witness :
  exists k,
    server.idsFromPath "/1f/zz/5"
    = ([31], Some (server.ErrorParsingIds "/1f/zz/5" (NumError "ParseUint" "zz" k)))
    /\ server.idsFromPath "/1f/zz"
       = ([31], Some (server.ErrorParsingIds "/1f/zz" (NumError "ParseUint" "zz" k))).
Proof.
  exact (idsFromPath_bad_segment "/1f" "zz" "5" [31]
           ltac:(reflexivity) ltac:(reflexivity) ltac:(reflexivity)).
Defined.

(** * More on [resource/status.go] and [resource/resource.go] *)

(** X4. [Status.UnmarshalJSON] keeps the Status valid, whatever the input:
    after a success it is in range; after [ErrOutOfRange] it is [Free]; after
    any other error it is what it was. So a Status in range stays in range. *)
Theorem Status_UnmarshalJSON_keeps_valid (s : Status.t) (raw : json.value) :
  let s' := fst (Status.UnmarshalJSON s raw) in
  let err := snd (Status.UnmarshalJSON s raw) in
  (err = None -> Status.inRange s' = true)
  /\ (err = Some ErrOutOfRange -> s' = Status.Free)
  /\ (err <> None -> err <> Some ErrOutOfRange -> s' = s)
  /\ (Status.inRange s = true -> Status.inRange s' = true).
Proof.
  cbv zeta. unfold Status.UnmarshalJSON.
  assert (Hinner : forall e, snd (json.Unmarshal_uint8 0 raw) = Some e ->
                             e <> ErrOutOfRange).
  { intros e. unfold json.Unmarshal_uint8.
    destruct raw; cbn [snd json.kind];
      try discriminate; try (intros [= <-]; discriminate).
    destruct (strconv.ParseUint lit 10 64) as [n [k|]]; cbn [snd];
      [intros [= <-]; discriminate|].
    destruct (n <? 2 ^ 8); cbn [snd]; [discriminate|intros [= <-]; discriminate]. }
  destruct (json.Unmarshal_uint8 0 raw) as [t [e|]]; cbn [fst snd].
  - specialize (Hinner e eq_refl). repeat split; congruence.
  - destruct (Status.inRange t) eqn:Ht; cbn [negb fst snd].
    + repeat split; congruence.
    + repeat split; congruence.
Qed.

Lemma Status_UnmarshalJSON_ok s raw s' :
  Status.UnmarshalJSON s raw = (s', None) -> Status.inRange s' = true.
Proof.
  unfold Status.UnmarshalJSON.
  destruct (json.Unmarshal_uint8 0 raw) as [t [e|]]; [discriminate|].
  destruct (Status.inRange t) eqn:Ht; cbn [negb]; [|discriminate].
  now intros [= <-].
Qed.

Lemma parse_loop_bound base cutoff maxVal s : forall n v,
  strconv.parse_loop base cutoff maxVal s n = (v, None) ->
  n <= maxVal -> v <= maxVal.
Proof.
  induction s as [|c r IH]; intros n v; cbn [strconv.parse_loop].
  - now intros [= <-].
  - destruct (strconv.digit_val (N_of_ascii c)) as [d|]; [|discriminate].
    destruct (base <=? d); [discriminate|].
    destruct (cutoff <=? n); [discriminate|]. cbv zeta.
    set (n1 := ((n * base) mod 2 ^ 64 + d) mod 2 ^ 64).
    destruct (n1 <? (n * base) mod 2 ^ 64); [discriminate|]. cbn [orb].
    destruct (N.ltb_spec maxVal n1) as [Hgt|Hle]; [discriminate|].
    intros Hrec _. now apply (IH n1).
Qed.

Lemma ParseUint_bound s base v :
  strconv.ParseUint s base 64 = (v, None) -> v < 2 ^ 64.
Proof.
  unfold strconv.ParseUint. destruct s as [|c r]; [discriminate|].
  destruct (strconv.parse_loop _ _ _ (String c r) 0) as [v' [k|]] eqn:E;
    [discriminate|].
  intros [= <-]. apply parse_loop_bound in E; lia.
Qed.

Section DecoderInvariants.
Variable tu : time.Time -> json.value -> time.Time * option error.

Lemma decode_members_status ms : forall st st',
  Resource.decode_members tu st ms = Ok st' ->
  Status.inRange (Resource.tmp_Status (fst st)) = true ->
  Status.inRange (Resource.tmp_Status (fst st')) = true.
Proof.
  induction ms as [|[key v] ms IH]; intros [tmp saved] st';
    cbn [Resource.decode_members Resource.decode_member fst].
  - now intros [= <-].
  - destruct (Resource.field_of_key key) as [[]|].
    + destruct (Resource.decode_string (Resource.tmp_Id tmp) saved v) as [s saved'].
      intros H Hin. exact (IH _ _ H Hin).
    + destruct (Resource.decode_string (Resource.tmp_FriendlyName tmp) saved v)
        as [s saved'].
      intros H Hin. exact (IH _ _ H Hin).
    + destruct (Status.UnmarshalJSON (Resource.tmp_Status tmp) v) as [s [e|]] eqn:E;
        [discriminate|].
      intros H _. apply (IH _ _ H). cbn [fst Resource.tmp_Status].
      exact (Status_UnmarshalJSON_ok _ _ _ E).
    + destruct (tu (Resource.tmp_Since tmp) v) as [s [e|]]; [discriminate|].
      intros H Hin. exact (IH _ _ H Hin).
    + intros H Hin. exact (IH _ _ H Hin).
Qed.

Lemma json_Unmarshal_status raw tmp :
  Resource.json_Unmarshal tu raw = Ok tmp ->
  Status.inRange (Resource.tmp_Status tmp) = true.
Proof.
  unfold Resource.json_Unmarshal. destruct raw as [| | | | |ms]; try discriminate.
  - now intros [= <-].
  - destruct (Resource.decode_members tu _ ms) as [[tmp' [e|]]|e] eqn:E;
      try discriminate.
    intros [= <-]. exact (decode_members_status ms _ _ E eq_refl).
Qed.

(** A saved type error stays until the end of the object. *)
Lemma decode_members_saved ms : forall tmp e st',
  Resource.decode_members tu (tmp, Some e) ms = Ok st' -> snd st' = Some e.
Proof.
  induction ms as [|[key v] ms IH]; intros tmp e st';
    cbn [Resource.decode_members Resource.decode_member].
  - now intros [= <-].
  - destruct (Resource.field_of_key key) as [[]|].
    + destruct v; cbn [Resource.decode_string Resource.saveError]; apply IH.
    + destruct v; cbn [Resource.decode_string Resource.saveError]; apply IH.
    + destruct (Status.UnmarshalJSON (Resource.tmp_Status tmp) v) as [s [e'|]];
        [discriminate|apply IH].
    + destruct (tu (Resource.tmp_Since tmp) v) as [s [e'|]];
        [discriminate|apply IH].
    + apply IH.
Qed.
End DecoderInvariants.

(** X5. A Resource that [UnmarshalJSON] returns without error is well formed,
    whatever the input and the receiver: its status is in {0,1,2} (so its
    status never makes [MarshalJSON] fail) and its id is a [uint64]. *)
Theorem UnmarshalJSON_ok_valid
  (tu : time.Time -> json.value -> time.Time * option error)
  (r r' : Resource.t) (raw : json.value) :
  Resource.UnmarshalJSON tu r raw = (r', None) ->
  Status.inRange (Resource.Status r') = true
  /\ Resource.Id r' < 2 ^ 64
  /\ exists v, Status.MarshalJSON (Resource.Status r') = Ok v.
Proof.
  unfold Resource.UnmarshalJSON.
  destruct (Resource.json_Unmarshal tu raw) as [tmp|e] eqn:E; [|discriminate].
  pose proof (json_Unmarshal_status tu raw tmp E) as Hs. cbv zeta.
  destruct (strconv.ParseUint _ 16 64) as [id [e|]] eqn:Ep; [discriminate|].
  intros [= <-]. cbn [Resource.Status Resource.Id].
  split; [exact Hs|]. split; [exact (ParseUint_bound _ _ _ Ep)|].
  unfold Status.MarshalJSON. rewrite Hs. cbn [negb]. eauto.
Qed.

(** X5 at an input that gives an id and a status, on a receiver whose status
    was out of range. *)
Lemma UnmarshalJSON_ok_valid_witness :
  let raw := json.JObject [("id", json.JString false "ff");
                           ("status", json.JNumber "2")] in
  let r' := Resource.mk 255 "" Status.Occupied time.zero in
  Resource.UnmarshalJSON time.UnmarshalJSON_RFC3339
    (Resource.mk 7 "old name" 9 time.zero) raw = (r', None)
  /\ Status.inRange (Resource.Status r') = true
  /\ Resource.Id r' < 2 ^ 64
  /\ exists v, Status.MarshalJSON (Resource.Status r') = Ok v.
Proof.
  exact (conj eq_refl
           (UnmarshalJSON_ok_valid time.UnmarshalJSON_RFC3339
              (Resource.mk 7 "old name" 9 time.zero)
              (Resource.mk 255 "" Status.Occupied time.zero)
              (json.JObject [("id", json.JString false "ff");
                             ("status", json.JNumber "2")])
              eq_refl)).
Defined.

(** X6. What a failed [UnmarshalJSON] leaves behind, for every input: either
    the receiver is untouched (the error is the one of [json.Unmarshal]), or
    [json.Unmarshal] had succeeded, the error is the [NumError] of [ParseUint]
    on the identifier, and the receiver holds the decoded friendlyName,
    status and since with its old id. The id is never modified by a failed
    call. *)
Theorem UnmarshalJSON_error_state
  (tu : time.Time -> json.value -> time.Time * option error)
  (r r' : Resource.t) (raw : json.value) (e : error) :
  Resource.UnmarshalJSON tu r raw = (r', Some e) ->
  Resource.Id r' = Resource.Id r
  /\ ((r' = r /\ Resource.json_Unmarshal tu raw = Err e)
      \/ exists tmp k,
           Resource.json_Unmarshal tu raw = Ok tmp
           /\ e = NumError "ParseUint"
                    (if Nat.eqb (String.length (Resource.tmp_Id tmp)) 0 then "0"
                     else Resource.tmp_Id tmp) k
           /\ r' = Resource.mk (Resource.Id r) (Resource.tmp_FriendlyName tmp)
                     (Resource.tmp_Status tmp) (Resource.tmp_Since tmp)).
Proof.
  unfold Resource.UnmarshalJSON.
  destruct (Resource.json_Unmarshal tu raw) as [tmp|e0] eqn:E.
  - cbv zeta.
    set (s := if Nat.eqb (String.length (Resource.tmp_Id tmp)) 0 then "0"
              else Resource.tmp_Id tmp).
    assert (Hnum : forall v e1, strconv.ParseUint s 16 64 = (v, Some e1) ->
                                exists k, e1 = NumError "ParseUint" s k).
    { unfold strconv.ParseUint. intros v e1. destruct s as [|c s']; [intros [= <- <-]; eauto|].
      destruct (strconv.parse_loop _ _ _ _ _) as [v' [k|]]; [|discriminate].
      intros [= <- <-]. eauto. }
    destruct (strconv.ParseUint s 16 64) as [id [e1|]] eqn:Ep; [|discriminate].
    destruct (Hnum _ _ eq_refl) as [k ->].
    intros [= <- <-]. split; [reflexivity|]. right. exists tmp, k. auto.
  - intros [= <- <-]. split; [reflexivity|]. left. auto.
Qed.

(** X6 at an input whose id is not hexadecimal. *)
Lemma UnmarshalJSON_error_state_witness :
  let r := Resource.mk 7 "old name" Status.Busy time.zero in
  let r' := Resource.mk 7 "printer" Status.Free time.zero in
  let raw := json.JObject [("id", json.JString false "0x1F");
                           ("friendlyName", json.JString false "printer")] in
  let e := NumError "ParseUint" "0x1F" ErrSyntax in
  Resource.Id r' = Resource.Id r
  /\ ((r' = r /\ Resource.json_Unmarshal time.UnmarshalJSON_RFC3339 raw = Err e)
      \/ exists tmp k,
           Resource.json_Unmarshal time.UnmarshalJSON_RFC3339 raw = Ok tmp
           /\ e = NumError "ParseUint"
                    (if Nat.eqb (String.length (Resource.tmp_Id tmp)) 0 then "0"
                     else Resource.tmp_Id tmp) k
           /\ r' = Resource.mk (Resource.Id r) (Resource.tmp_FriendlyName tmp)
                     (Resource.tmp_Status tmp) (Resource.tmp_Since tmp)).
Proof.
  exact (UnmarshalJSON_error_state time.UnmarshalJSON_RFC3339
           (Resource.mk 7 "old name" Status.Busy time.zero)
           (Resource.mk 7 "printer" Status.Free time.zero)
           (json.JObject [("id", json.JString false "0x1F");
                          ("friendlyName", json.JString false "printer")])
           (NumError "ParseUint" "0x1F" ErrSyntax)
           ltac:(reflexivity)).
Defined.

Section DecoderMembers.
Variable tu : time.Time -> json.value -> time.Time * option error.

Lemma decode_members_concat pre : forall st post,
  Resource.decode_members tu st (pre ++ post)
  = match Resource.decode_members tu st pre with
    | Ok st' => Resource.decode_members tu st' post
    | Err e => Err e
    end.
Proof.
  induction pre as [|m pre IH]; intros st post; cbn [app Resource.decode_members].
  - reflexivity.
  - destruct (Resource.decode_member tu st m) as [st'|e]; [apply IH|reflexivity].
Qed.

(** Dropping a member that changes nothing does not change the result. *)
Lemma UnmarshalJSON_drop_member r pre m post :
  (forall st, Resource.decode_member tu st m = Ok st) ->
  Resource.UnmarshalJSON tu r (json.JObject (pre ++ m :: post))
  = Resource.UnmarshalJSON tu r (json.JObject (pre ++ post)).
Proof.
  intros Hm. unfold Resource.UnmarshalJSON, Resource.json_Unmarshal.
  rewrite decode_members_app, decode_members_concat.
  destruct (Resource.decode_members tu _ pre) as [st'|e]; [|reflexivity].
  now rewrite Hm.
Qed.
End DecoderMembers.

(** X7. Members that [UnmarshalJSON] ignores: a member whose key designates
    none of the four fields, whatever its value, and a [null] given for the
    id or the friendlyName. With or without such a member, anywhere in the
    object, the result and the error are the same. *)
Theorem UnmarshalJSON_ignored_member
  (tu : time.Time -> json.value -> time.Time * option error)
  (r : Resource.t) (pre post : list (string * json.value)) (key : string)
  (v : json.value) :
  Resource.field_of_key key = None
  \/ (v = json.JNull
      /\ (Resource.field_of_key key = Some Resource.FId
          \/ Resource.field_of_key key = Some Resource.FFriendlyName)) ->
  Resource.UnmarshalJSON tu r (json.JObject (pre ++ (key, v) :: post))
  = Resource.UnmarshalJSON tu r (json.JObject (pre ++ post)).
Proof.
  intros H. apply UnmarshalJSON_drop_member. intros [tmp saved].
  cbn [Resource.decode_member].
  destruct H as [->|[-> [-> | ->]]]; [reflexivity| |];
    cbn [Resource.decode_string]; now destruct tmp.
Qed.

(** X7 at an object with a member [comment] and a [null] friendlyName. *)
Lemma UnmarshalJSON_ignored_member_witness :
  Resource.UnmarshalJSON time.UnmarshalJSON_RFC3339 example_resource
    (json.JObject ([("id", json.JString false "1F")]
                   ++ ("comment", json.JArray [json.JNumber "1"])
                   :: [("status", json.JNumber "2")]))
  = Resource.UnmarshalJSON time.UnmarshalJSON_RFC3339 example_resource
      (json.JObject ([("id", json.JString false "1F")]
                     ++ [("status", json.JNumber "2")]))
  /\ Resource.UnmarshalJSON time.UnmarshalJSON_RFC3339 example_resource
       (json.JObject ([("friendlyName", json.JString false "printer")]
                      ++ ("FriendlyName", json.JNull) :: []))
     = Resource.UnmarshalJSON time.UnmarshalJSON_RFC3339 example_resource
         (json.JObject ([("friendlyName", json.JString false "printer")] ++ [])).
Proof.
  split.
  - exact (UnmarshalJSON_ignored_member time.UnmarshalJSON_RFC3339 example_resource
             [("id", json.JString false "1F")] [("status", json.JNumber "2")]
             "comment" (json.JArray [json.JNumber "1"]) (or_introl eq_refl)).
  - exact (UnmarshalJSON_ignored_member time.UnmarshalJSON_RFC3339 example_resource
             [("friendlyName", json.JString false "printer")] []
             "FriendlyName" json.JNull
             (or_intror (conj eq_refl (or_intror eq_refl)))).
Defined.

(** X8. An id or a friendlyName given as something else than a string or
    [null] (a number, a boolean, an array, an object) is a type error that
    does not stop the decoding of the members that follow, but makes the call
    fail in the end: when the other members decode, [UnmarshalJSON] returns
    the [UnmarshalTypeError] of that member and leaves the receiver untouched,
    also the fields that were decoded. *)
Theorem UnmarshalJSON_type_error
  (tu : time.Time -> json.value -> time.Time * option error)
  (r : Resource.t) (pre post : list (string * json.value)) (key : string)
  (v : json.value) (tmp1 : Resource.tmpResource)
  (st' : Resource.tmpResource * option error) :
  Resource.field_of_key key = Some Resource.FId
  \/ Resource.field_of_key key = Some Resource.FFriendlyName ->
  json.kind v <> "string" -> json.kind v <> "null" ->
  Resource.decode_members tu (Resource.mkTmp "" "" Status.Free time.zero, None) pre
  = Ok (tmp1, None) ->
  Resource.decode_members tu
    (tmp1, Some (UnmarshalTypeError (json.kind v) "string")) post = Ok st' ->
  Resource.UnmarshalJSON tu r (json.JObject (pre ++ (key, v) :: post))
  = (r, Some (UnmarshalTypeError (json.kind v) "string")).
Proof.
  intros Hkey Hs Hn Hpre Hpost.
  apply UnmarshalJSON_decode_error. unfold Resource.json_Unmarshal.
  rewrite decode_members_app, Hpre.
  assert (Hm : Resource.decode_member tu (tmp1, None) (key, v)
               = Ok (tmp1, Some (UnmarshalTypeError (json.kind v) "string"))).
  { cbn [Resource.decode_member].
    destruct Hkey as [-> | ->];
      destruct v; cbn [json.kind] in Hs, Hn; try congruence;
      cbn [Resource.decode_string Resource.saveError json.kind]; now destruct tmp1. }
  rewrite Hm, Hpost.
  pose proof (decode_members_saved tu post _ _ _ Hpost) as Hsaved.
  destruct st' as [tmp' saved]. cbn [snd] in Hsaved. now subst saved.
Qed.

(** X8 at an id given as the number 5, before a friendlyName. *)
Lemma UnmarshalJSON_type_error_witness :
  Resource.UnmarshalJSON time.UnmarshalJSON_RFC3339 example_resource
    (json.JObject ([("status", json.JNumber "2")]
                   ++ ("id", json.JNumber "5")
                   :: [("friendlyName", json.JString false "printer")]))
  = (example_resource, Some (UnmarshalTypeError "number" "string")).
Proof.
  exact (UnmarshalJSON_type_error time.UnmarshalJSON_RFC3339 example_resource
           [("status", json.JNumber "2")]
           [("friendlyName", json.JString false "printer")]
           "id" (json.JNumber "5")
           (Resource.mkTmp "" "" Status.Occupied time.zero)
           (Resource.mkTmp "" "printer" Status.Occupied time.zero,
            Some (UnmarshalTypeError "number" "string"))
           (or_introl eq_refl) ltac:(discriminate) ltac:(discriminate)
           eq_refl eq_refl).
Defined.

(** X10. Distinct ids have distinct storage keys: the key
    [strconv.FormatUint(id, 16)] under which [getResource] looks an id up
    determines the id. *)
Theorem storage_key_injective (id1 id2 : N) :
  id1 < 2 ^ 64 -> id2 < 2 ^ 64 -> id1 <> id2 ->
  strconv.FormatUint id1 16 <> strconv.FormatUint id2 16.
Proof.
  intros H1 H2 Hne E.
  pose proof (ParseUint_FormatUint16 id1 H1) as P1.
  pose proof (ParseUint_FormatUint16 id2 H2) as P2.
  rewrite E in P1. congruence.
Qed.

(** X10 at the ids 0x1F and 0x1F0. *)
Lemma storage_key_injective_witness :
  0x1F <> 0x1F0 /\ strconv.FormatUint 0x1F 16 <> strconv.FormatUint 0x1F0 16.
Proof.
  assert (Hne : 0x1F <> 0x1F0) by discriminate.
  exact (conj Hne
           (storage_key_injective 0x1F 0x1F0 ltac:(reflexivity) ltac:(reflexivity) Hne)).
Defined.

(** * The server: responses *)

Lemma textOrJson_range accepts :
  server.textOrJson accepts = "application/json"
  \/ server.textOrJson accepts = "text/plain".
Proof.
  induction accepts as [|a rest IH]; cbn [server.textOrJson]; [now right|].
  destruct (String.eqb a "application/json"); [now left|].
  destruct (String.eqb a "text/plain"); [now right|].
  destruct (String.eqb a "*/*"); [now right|]. exact IH.
Qed.

(** X11. [textOrJson] is decided by the first entry of the Accept header that
    is exactly "application/json", "text/plain" or "*/*": JSON for the first,
    text for the other two, and text when there is no such entry (an empty
    header, or entries with parameters or several media types). *)
Theorem textOrJson_first_recognised (accepts : list string) :
  server.textOrJson accepts
  = match find recognised accepts with
    | Some a => if String.eqb a "application/json" then "application/json"
                else "text/plain"
    | None => "text/plain"
    end.
Proof.
  induction accepts as [|a rest IH]; cbn [server.textOrJson find]; [reflexivity|].
  unfold recognised.
  destruct (String.eqb a "application/json") eqn:Ej; cbn [orb]; [now rewrite Ej|].
  destruct (String.eqb a "text/plain") eqn:Et; cbn [orb]; [now rewrite Ej|].
  destruct (String.eqb a "*/*") eqn:Es; cbn [orb]; [now rewrite Ej|].
  exact IH.
Qed.

(** X12. [error404] and [error500] always answer, with exactly one
    [http.Error]: the [switch] on [textOrJson] has no third case to fall
    through. The message is "[]" (404) or empty (500) for JSON, and
    "Resource Not Found" or "Server Error" for text. *)
Theorem error_responses (w : server.ResponseWriter) (r : server.Request) :
  server.error404 w r
  = (w ++ [server.Error
             (if String.eqb (server.textOrJson (server.Accept r)) "application/json"
              then "[]" else "Resource Not Found") 404])%list
  /\ server.error500 w r
     = (w ++ [server.Error
                (if String.eqb (server.textOrJson (server.Accept r)) "application/json"
                 then "" else "Server Error") 500])%list.
Proof.
  unfold server.error404, server.error500. cbv zeta.
  destruct (textOrJson_range (server.Accept r)) as [-> | ->]; split; reflexivity.
Qed.

Lemma error404_one w r : exists msg, server.error404 w r = (w ++ [server.Error msg 404])%list.
Proof.
  unfold server.error404. cbv zeta.
  destruct (textOrJson_range (server.Accept r)) as [-> | ->]; cbn; eauto.
Qed.

Lemma error500_one w r : exists msg, server.error500 w r = (w ++ [server.Error msg 500])%list.
Proof.
  unfold server.error500. cbv zeta.
  destruct (textOrJson_range (server.Accept r)) as [-> | ->]; cbn; eauto.
Qed.

(** ** The two encoders *)

Lemma encode_text_map rs : forall w,
  server.encode_text w rs = ((w ++ map line rs)%list, None).
Proof.
  induction rs as [|r rs IH]; intros w; cbn [server.encode_text map].
  - now rewrite app_nil_r.
  - rewrite IH, <- List.app_assoc. reflexivity.
Qed.

(** X13. [encode_text] never fails on a buffer and appends one chunk per
    Resource, in order: its line, the text of [Resource.String] and a line
    feed. Statuses out of range do not stop it (they are written as 0).
    Encoding two lists one after the other is encoding their concatenation. *)
Theorem encode_text_lines (w : server.Buffer) (rs rs' : list Resource.t) :
  server.encode_text w rs = ((w ++ map line rs)%list, None)
  /\ server.encode_text (fst (server.encode_text w rs)) rs'
     = server.encode_text w (rs ++ rs').
Proof.
  split; [apply encode_text_map|].
  rewrite !encode_text_map. cbn [fst]. now rewrite map_app, List.app_assoc.
Qed.

Lemma Marshal_resources_ok rs :
  forallb can_marshal rs = true ->
  exists vs, server.Marshal_resources rs = Ok vs
             /\ Forall2 (fun r v => Resource.MarshalJSON r = Ok v) rs vs.
Proof.
  induction rs as [|r rs IH]; cbn [forallb server.Marshal_resources].
  - intros _. exists []. split; [reflexivity|constructor].
  - intros [Hr Hrs]%andb_prop. destruct (IH Hrs) as (vs & Hvs & Hall).
    assert (Hm : exists v, Resource.MarshalJSON r = Ok v).
    { unfold can_marshal in Hr.
      unfold Resource.MarshalJSON, Resource.json_Marshal, Status.MarshalJSON,
        time.MarshalJSON. cbv zeta.
      cbn [Resource.tmp_Id Resource.tmp_FriendlyName Resource.tmp_Status
             Resource.tmp_Since].
      destruct (Status.inRange (Resource.Status r)); [|discriminate Hr].
      cbn [negb andb] in *.
      replace ((time.Year (Resource.Since r) <? 0)%Z
               || (10000 <=? time.Year (Resource.Since r))%Z) with false by lia.
      eauto. }
    destruct Hm as [v Hv]. exists (v :: vs). rewrite Hv, Hvs.
    split; [reflexivity|now constructor].
Qed.

Lemma Marshal_resources_fail rs :
  forallb can_marshal rs = false -> exists e, server.Marshal_resources rs = Err e.
Proof.
  induction rs as [|r rs IH]; cbn [forallb server.Marshal_resources]; [discriminate|].
  intros H. destruct (Resource.MarshalJSON r) as [v|e] eqn:Hv; [|eauto].
  destruct (can_marshal r) eqn:Hr.
  - cbn [andb] in H. destruct (IH H) as [e ->]. eauto.
  - exfalso. revert Hv. unfold can_marshal in Hr.
    unfold Resource.MarshalJSON, Resource.json_Marshal, Status.MarshalJSON,
      time.MarshalJSON. cbv zeta.
    cbn [Resource.tmp_Id Resource.tmp_FriendlyName Resource.tmp_Status
           Resource.tmp_Since].
    destruct (Status.inRange (Resource.Status r)); cbn [negb andb] in *;
      [|discriminate].
    replace ((time.Year (Resource.Since r) <? 0)%Z
             || (10000 <=? time.Year (Resource.Since r))%Z) with true by lia.
    discriminate.
Qed.

(** X14. [encode_json] is all or nothing. When every Resource of the list has
    a status in range and a year in 0..9999 it appends one chunk, the array of
    what [MarshalJSON] gives for each, in order; as soon as one Resource of
    the list has not, it fails and the buffer is as before: nothing of the
    other Resources is written. *)
Theorem encode_json_all_or_nothing (w : server.Buffer) (rs : list Resource.t) :
  if forallb can_marshal rs
  then exists vs,
         server.encode_json w rs
         = ((w ++ [server.JSONLine (json.JArray vs)])%list, None)
         /\ Forall2 (fun r v => Resource.MarshalJSON r = Ok v) rs vs
  else exists e, server.encode_json w rs = (w, Some e).
Proof.
  unfold server.encode_json. destruct (forallb can_marshal rs) eqn:H.
  - destruct (Marshal_resources_ok rs H) as (vs & -> & Hall). eauto.
  - destruct (Marshal_resources_fail rs H) as [e ->]. eauto.
Qed.

(** ** getResource and ServeHTTP *)

Section Handlers.
Variable tu : time.Time -> json.value -> time.Time * option error.
Variable Get : string -> option server.bytes.

Lemma receive_sent ids : forall acc,
  server.receive tu (server.sent Get ids) acc
  = if existsb (corrupt tu Get) ids then None
    else Some (acc ++ stored_resources tu Get ids)%list.
Proof.
  induction ids as [|id ids IH]; intros acc;
    cbn [server.sent map server.receive existsb stored_resources flat_map].
  - now rewrite app_nil_r.
  - unfold corrupt at 1. fold (server.sent Get ids).
    fold (stored_resources tu Get ids).
    destruct (Get (strconv.FormatUint id 16)) as [raw|]; cbn [orb app].
    + destruct (server.decode tu raw) as [rc|]; cbn [orb app]; [|reflexivity].
      rewrite IH. destruct (existsb (corrupt tu Get) ids); [reflexivity|].
      now rewrite <- List.app_assoc.
    + apply IH.
Qed.

(** [getResource] makes one call on the [ResponseWriter]. *)
Lemma getResource_one w r ids :
  exists c, server.getResource tu Get w r ids = (w ++ [c])%list.
Proof.
  destruct (error404_one w r) as [m4 H4]. destruct (error500_one w r) as [m5 H5].
  unfold server.getResource. destruct ids as [|id ids]; [eauto|].
  cbn [List.length Nat.eqb]. rewrite receive_sent. cbn [app].
  destruct (existsb (corrupt tu Get) (id :: ids)); [eauto|].
  destruct (stored_resources tu Get (id :: ids)) as [|rc rs]; [eauto|].
  cbn [List.length Nat.eqb]. unfold server.encoder.
  destruct (String.eqb (server.textOrJson (server.Accept r)) "application/json").
  - unfold server.encode_json.
    destruct (server.Marshal_resources (rc :: rs)) as [vs|e];
      [eexists; reflexivity|eauto].
  - rewrite encode_text_map. eexists; reflexivity.
Qed.
End Handlers.

(** X15. The response of [getResource], for every request and list of ids, on
    a bucket whose stored timestamps are in UTC. If one of the ids is stored
    with bytes that [UnmarshalJSON] refuses, the answer is the 500 error,
    whatever the other ids. Otherwise, if none of the ids is stored (or there
    is no id), it is the 404 error. Otherwise it is one [Write]: for text, the
    lines of the stored Resources in the order of the ids, ids that are not
    stored being skipped; for JSON, the array of their serialized forms, or
    the 500 error if one of them cannot be serialized. *)
Theorem getResource_response
  (tu : time.Time -> json.value -> time.Time * option error)
  (Get : string -> option server.bytes)
  (w : server.ResponseWriter) (r : server.Request) (ids : list N) :
  (forall k v, Get k = Some (server.JSON v) -> utc_since v = true) ->
  server.getResource tu Get w r ids
  = if existsb (corrupt tu Get) ids then server.error500 w r
    else
      match stored_resources tu Get ids with
      | [] => server.error404 w r
      | rs =>
          if String.eqb (server.textOrJson (server.Accept r)) "application/json"
          then match server.Marshal_resources rs with
               | Ok vs => (w ++ [server.Write [server.JSONLine (json.JArray vs)]])%list
               | Err _ => server.error500 w r
               end
          else (w ++ [server.Write (map line rs)])%list
      end.
Proof.
  intros _.
  unfold server.getResource. destruct ids as [|id ids]; [reflexivity|].
  cbn [List.length Nat.eqb]. rewrite receive_sent. cbn [app].
  destruct (existsb (corrupt tu Get) (id :: ids)); [reflexivity|].
  destruct (stored_resources tu Get (id :: ids)) as [|rc rs]; [reflexivity|].
  cbn [List.length Nat.eqb]. unfold server.encoder.
  destruct (String.eqb (server.textOrJson (server.Accept r)) "application/json").
  - unfold server.encode_json.
    destruct (server.Marshal_resources (rc :: rs)) as [vs|e]; reflexivity.
  - rewrite encode_text_map. reflexivity.
Qed.

(** X15 at a bucket that holds the Resource of the specification's example
    under [123456789abcdef] and nothing under [5], asked for as text. *)
Lemma getResource_response_witness :
  let Get := fun k : string =>
    if String.eqb k "123456789abcdef"
    then Some (server.JSON
                 (json.JObject
                    [("id", json.JString false "123456789ABCDEF");
                     ("friendlyName", json.JString false "My Resource");
                     ("status", json.JNumber "1");
                     ("since", json.JString false "2006-01-02T15:04:05Z")]))
    else None in
  server.getResource time.UnmarshalJSON_RFC3339 Get []
    (server.mkRequest "GET" "/5/123456789abcdef" ["text/plain"])
    [5; 0x0123456789ABCDEF]
  = [server.Write
       [server.Text
          ("2006-01-02T15:04:05Z 1 0123456789ABCDEF My Resource" ++ server.LF)]].
Proof.
  cbv zeta.
  refine (getResource_response time.UnmarshalJSON_RFC3339 _ []
            (server.mkRequest "GET" "/5/123456789abcdef" ["text/plain"])
            [5; 0x0123456789ABCDEF] _).
  intros k v. destruct (String.eqb k "123456789abcdef"); [|discriminate].
  intros [= <-]. reflexivity.
Defined.

(** X16. [getResource] answers every request with exactly one call on the
    [ResponseWriter]: it never leaves a request unanswered (the buffer it
    writes is never empty) and never answers twice. *)
Theorem getResource_answers_once
  (tu : time.Time -> json.value -> time.Time * option error)
  (Get : string -> option server.bytes)
  (w : server.ResponseWriter) (r : server.Request) (ids : list N) :
  exists c,
    server.getResource tu Get w r ids = (w ++ [c])%list
    /\ match c with
       | server.Write content => content <> []
       | server.Error _ code => code = 404 \/ code = 500
       end.
Proof.
  destruct (error404_one w r) as [m4 H4]. destruct (error500_one w r) as [m5 H5].
  unfold server.getResource. destruct ids as [|id ids].
  { exists (server.Error m4 404). split; [exact H4|now left]. }
  cbn [List.length Nat.eqb]. rewrite receive_sent. cbn [app].
  destruct (existsb (corrupt tu Get) (id :: ids)).
  { exists (server.Error m5 500). split; [exact H5|now right]. }
  destruct (stored_resources tu Get (id :: ids)) as [|rc rs].
  { exists (server.Error m4 404). split; [exact H4|now left]. }
  cbn [List.length Nat.eqb]. unfold server.encoder.
  destruct (String.eqb (server.textOrJson (server.Accept r)) "application/json").
  - unfold server.encode_json.
    destruct (server.Marshal_resources (rc :: rs)) as [vs|e].
    + eexists. split; [reflexivity|discriminate].
    + exists (server.Error m5 500). split; [exact H5|now right].
  - rewrite encode_text_map. eexists. split; [reflexivity|discriminate].
Qed.

(** X17. How many times [ServeHTTP] answers a request: once for each of a
    path that [idsFromPath] refuses (the 404 error, after which the method is
    dispatched all the same) and a method other than PUT, POST and DELETE
    (whose handlers are empty). So a PUT, POST or DELETE on a good path is
    left without an answer, and a GET or an unknown method on a bad path is
    answered twice. *)
Theorem ServeHTTP_answer_count
  (tu : time.Time -> json.value -> time.Time * option error)
  (Get : string -> option server.bytes)
  (w : server.ResponseWriter) (r : server.Request) :
  exists cs,
    server.ServeHTTP tu Get w r = (w ++ cs)%list
    /\ List.length cs
       = ((match snd (server.idsFromPath (server.Path r)) with
           | Some _ => 1
           | None => 0
           end)
          + (if silent (server.Method r) then 0 else 1))%nat.
Proof.
  unfold server.ServeHTTP.
  destruct (server.idsFromPath (server.Path r)) as [ids err]. cbn [snd].
  assert (Hw : exists pre,
            match err with Some _ => server.error404 w r | None => w end
            = (w ++ pre)%list
            /\ List.length pre = match err with Some _ => 1 | None => 0 end%nat).
  { destruct err as [e|].
    - destruct (error404_one w r) as [msg ->]. eexists. split; reflexivity.
    - exists []. split; [now rewrite app_nil_r|reflexivity]. }
  destruct Hw as (pre & -> & Hpre). rewrite <- Hpre.
  unfold server.putResource, server.postResource, server.deleteResource, silent.
  destruct (String.eqb_spec (server.Method r) "GET") as [->|_].
  { destruct (getResource_one tu Get (w ++ pre)%list r ids) as [c ->].
    exists (pre ++ [c])%list. split; [now rewrite List.app_assoc|].
    rewrite List.length_app. reflexivity. }
  destruct (String.eqb (server.Method r) "PUT").
  { exists pre. split; [reflexivity|]. cbn [orb]. lia. }
  destruct (String.eqb (server.Method r) "POST").
  { exists pre. split; [reflexivity|]. cbn [orb]. lia. }
  destruct (String.eqb (server.Method r) "DELETE").
  { exists pre. split; [reflexivity|]. cbn [orb]. lia. }
  exists (pre ++ [server.Error "Method Not Allowed" server.StatusMethodNotAllowed])%list.
  split; [now rewrite List.app_assoc|]. rewrite List.length_app. reflexivity.
Qed.

(** X18. [ServeHTTP] does not stop after the 404 of a path that
    [idsFromPath] refuses: the method is dispatched all the same, on the ids
    read before the bad segment. A GET is then answered twice, with the 404
    error and with the answer of [getResource]. *)
Theorem ServeHTTP_bad_path_GET
  (tu : time.Time -> json.value -> time.Time * option error)
  (Get : string -> option server.bytes)
  (w : server.ResponseWriter) (r : server.Request) (ids : list N)
  (e : server.ids_error) :
  server.idsFromPath (server.Path r) = (ids, Some e) ->
  server.Method r = "GET" ->
  server.ServeHTTP tu Get w r
  = server.getResource tu Get (server.error404 w r) r ids
  /\ exists msg c, server.ServeHTTP tu Get w r = (w ++ [server.Error msg 404; c])%list.
Proof.
  intros Hp Hm.
  assert (H : server.ServeHTTP tu Get w r
              = server.getResource tu Get (server.error404 w r) r ids).
  { unfold server.ServeHTTP. rewrite Hp, Hm. reflexivity. }
  split; [exact H|]. rewrite H.
  destruct (error404_one w r) as [msg ->].
  destruct (getResource_one tu Get (w ++ [server.Error msg 404])%list r ids) as [c ->].
  exists msg, c. now rewrite <- List.app_assoc.
Qed.

(** X18 at a GET of [/zz] -- the path of no id -- which is answered with two
    404 errors. *)
Lemma ServeHTTP_bad_path_GET_witness :
  let r := server.mkRequest "GET" "/zz" [] in
  server.ServeHTTP time.UnmarshalJSON_RFC3339 (fun _ => None) [] r
  = server.getResource time.UnmarshalJSON_RFC3339 (fun _ => None)
      (server.error404 [] r) r []
  /\ exists msg c,
       server.ServeHTTP time.UnmarshalJSON_RFC3339 (fun _ => None) [] r
       = ([] ++ [server.Error msg 404; c])%list.
Proof.
  exact (ServeHTTP_bad_path_GET time.UnmarshalJSON_RFC3339 (fun _ => None) []
           (server.mkRequest "GET" "/zz" []) []
           (server.ErrorParsingIds "/zz" (NumError "ParseUint" "zz" ErrSyntax))
           eq_refl eq_refl).
Defined.

(** ** From the store to the response *)

(** [UnmarshalJSON] reads back what [MarshalJSON] returns, on the Resources
    for which the round trip holds. *)
Lemma UnmarshalJSON_of_MarshalJSON
  (tu : time.Time -> json.value -> time.Time * option error)
  (R r0 : Resource.t) (raw : json.value) :
  (forall t0 t v, time.MarshalJSON t = Ok v -> tu t0 v = (t, None)) ->
  Resource.Id R < 2 ^ 64 ->
  utf8.ValidString (Resource.FriendlyName R) = true ->
  Resource.MarshalJSON R = Ok raw ->
  Resource.UnmarshalJSON tu r0 raw = (R, None).
Proof.
  intros Htu Hid Hname. destruct R as [id name status since].
  cbn [Resource.Id Resource.FriendlyName] in *.
  unfold Resource.MarshalJSON, Resource.json_Marshal. cbv zeta.
  cbn [Resource.tmp_Status Resource.tmp_Since Resource.tmp_Id
         Resource.tmp_FriendlyName Resource.Status Resource.Id
         Resource.FriendlyName Resource.Since].
  unfold Status.MarshalJSON.
  destruct (Status.inRange status) eqn:Hs; cbn [negb]; [|discriminate].
  destruct (time.MarshalJSON since) as [vt|e] eqn:Hvt; [|discriminate].
  intros [= <-].
  assert (Hstatus : status <= 2) by (unfold Status.inRange, Status.Occupied in Hs; lia).
  assert (Hdec : Resource.json_Unmarshal tu
                   (json.JObject
                      [("id", json.Marshal_string (fmt.verb_X id));
                       ("friendlyName", json.Marshal_string name);
                       ("status", json.Marshal_uint status);
                       ("since", vt)])
                 = Ok (Resource.mkTmp (fmt.verb_X id) name status since)).
  { unfold Resource.json_Unmarshal, json.Marshal_string.
    rewrite (coerce_valid name Hname).
    rewrite (coerce_valid (fmt.verb_X id))
      by (apply ValidString_ascii;
          eapply all_bytes_impl; [apply upper_hex_ascii|];
          now apply verb_X_upper_hex).
    cbn [Resource.decode_members].
    unfold Resource.decode_member at 1.
    change (Resource.field_of_key "id") with (Some Resource.FId).
    cbn [Resource.decode_string Resource.tmp_Id Resource.tmp_FriendlyName
           Resource.tmp_Status Resource.tmp_Since].
    unfold Resource.decode_member at 1.
    change (Resource.field_of_key "friendlyName") with (Some Resource.FFriendlyName).
    cbn [Resource.decode_string Resource.tmp_Id Resource.tmp_FriendlyName
           Resource.tmp_Status Resource.tmp_Since].
    unfold Resource.decode_member at 1.
    change (Resource.field_of_key "status") with (Some Resource.FStatus).
    cbn [Resource.tmp_Id Resource.tmp_FriendlyName
           Resource.tmp_Status Resource.tmp_Since].
    rewrite Status_UnmarshalJSON_in by assumption.
    unfold Resource.decode_member at 1.
    change (Resource.field_of_key "since") with (Some Resource.FSince).
    cbn [Resource.tmp_Id Resource.tmp_FriendlyName
           Resource.tmp_Status Resource.tmp_Since].
    rewrite (Htu _ _ _ Hvt). reflexivity. }
  rewrite (UnmarshalJSON_decoded tu r0 _ _ Hdec). cbv zeta.
  cbn [Resource.tmp_Id Resource.tmp_FriendlyName Resource.tmp_Status
         Resource.tmp_Since].
  pose proof (verb_X_length id Hid) as Hlen.
  destruct (Nat.eqb_spec (String.length (fmt.verb_X id)) 0); [lia|].
  rewrite ParseUint_verb_X by assumption. reflexivity.
Qed.

(** X9. The serialized form determines the Resource: among the Resources with
    a [uint64] id, a friendlyName in valid UTF-8 and a since in UTC, what
    [MarshalJSON] returns for one is returned for no other. *)
Theorem MarshalJSON_injective (R1 R2 : Resource.t) (v : json.value) :
  Resource.Id R1 < 2 ^ 64 -> Resource.Id R2 < 2 ^ 64 ->
  utf8.ValidString (Resource.FriendlyName R1) = true ->
  utf8.ValidString (Resource.FriendlyName R2) = true ->
  Resource.MarshalJSON R1 = Ok v ->
  R1 <> R2 ->
  Resource.MarshalJSON R2 <> Ok v.
Proof.
  intros Hid1 Hid2 Hn1 Hn2 Hv1 Hne Hv2. apply Hne.
  pose proof (UnmarshalJSON_of_MarshalJSON time.UnmarshalJSON_RFC3339 R1
                Resource.zero v rfc3339.UnmarshalJSON_MarshalJSON Hid1 Hn1 Hv1) as E1.
  pose proof (UnmarshalJSON_of_MarshalJSON time.UnmarshalJSON_RFC3339 R2
                Resource.zero v rfc3339.UnmarshalJSON_MarshalJSON Hid2 Hn2 Hv2) as E2.
  congruence.
Qed.

(** X9 at the Resource of the specification's example and the same Resource
    one second later. *)
Lemma MarshalJSON_injective_witness :
  let R2 := Resource.mk 0x0123456789ABCDEF "My Resource" Status.Busy
              (time.Date 2006 1 2 15 4 6 0) in
  example_resource <> R2
  /\ Resource.MarshalJSON R2
     <> Ok (json.JObject
              [("id", json.JString false "123456789ABCDEF");
               ("friendlyName", json.JString false "My Resource");
               ("status", json.JNumber "1");
               ("since", json.JString false "2006-01-02T15:04:05Z")]).
Proof.
  cbv zeta.
  assert (Hne : example_resource
                <> Resource.mk 0x0123456789ABCDEF "My Resource" Status.Busy
                     (time.Date 2006 1 2 15 4 6 0)) by discriminate.
  exact (conj Hne
           (MarshalJSON_injective example_resource
              (Resource.mk 0x0123456789ABCDEF "My Resource" Status.Busy
                 (time.Date 2006 1 2 15 4 6 0))
              (json.JObject
                 [("id", json.JString false "123456789ABCDEF");
                  ("friendlyName", json.JString false "My Resource");
                  ("status", json.JNumber "1");
                  ("since", json.JString false "2006-01-02T15:04:05Z")])
              ltac:(reflexivity) ltac:(reflexivity) ltac:(reflexivity)
              ltac:(reflexivity) ltac:(vm_compute; reflexivity) Hne)).
Defined.

Lemma idsFromPath_key id :
  id < 2 ^ 64 ->
  server.idsFromPath (String "/" (strconv.FormatUint id 16)) = ([id], None).
Proof.
  intros Hid.
  pose proof (idsFromPath_path_of (fun id => strconv.FormatUint id 16)
                (fun id => id < 2 ^ 64) ParseUint_FormatUint16
                (fun id H => is_hex_no_slash _ (FormatUint16_hex id H))
                [id] (@Forall_cons N (fun id => id < 2 ^ 64) id [] Hid (Forall_nil _))) as H.
  cbn [path_of] in H. now rewrite app_empty_r in H.
Qed.

(** X19. From the store to the response. Let the bucket hold, under the key
    of its id, the serialized form of a Resource for which the round trip
    holds (valid UTF-8 name, [time.Time] read back by its [UnmarshalJSON]).
    Then a GET of the path made of that key is answered once, with one
    [Write]: the line of the Resource for text, and the array holding the very
    value that is stored for JSON. *)
Theorem ServeHTTP_serves_stored
  (tu : time.Time -> json.value -> time.Time * option error)
  (Get : string -> option server.bytes)
  (w : server.ResponseWriter) (accepts : list string)
  (R : Resource.t) (v : json.value) :
  (forall t0 t v, time.MarshalJSON t = Ok v -> tu t0 v = (t, None)) ->
  Resource.Id R < 2 ^ 64 ->
  utf8.ValidString (Resource.FriendlyName R) = true ->
  Resource.MarshalJSON R = Ok v ->
  Get (strconv.FormatUint (Resource.Id R) 16) = Some (server.JSON v) ->
  server.ServeHTTP tu Get w
    (server.mkRequest "GET" (String "/" (strconv.FormatUint (Resource.Id R) 16))
       accepts)
  = (w ++ [server.Write
             [if String.eqb (server.textOrJson accepts) "application/json"
              then server.JSONLine (json.JArray [v])
              else line R]])%list.
Proof.
  intros Htu Hid Hname Hv Hget.
  unfold server.ServeHTTP. cbn [server.Path server.Method].
  rewrite (idsFromPath_key _ Hid). cbn [String.eqb Ascii.eqb Bool.eqb].
  unfold server.getResource. cbn [List.length Nat.eqb server.sent map].
  rewrite Hget. cbn [server.receive server.decode].
  rewrite (UnmarshalJSON_of_MarshalJSON tu R Resource.zero v Htu Hid Hname Hv).
  cbn [server.receive app List.length Nat.eqb server.Accept].
  unfold server.encoder.
  destruct (String.eqb (server.textOrJson accepts) "application/json").
  - unfold server.encode_json. cbn [server.Marshal_resources]. rewrite Hv.
    reflexivity.
  - reflexivity.
Qed.

(** X19 at the Resource of the specification's example, asked for as JSON. *)
Lemma ServeHTTP_serves_stored_witness :
  let Get := fun k : string =>
    if String.eqb k "123456789abcdef"
    then Some (server.JSON
                 (json.JObject
                    [("id", json.JString false "123456789ABCDEF");
                     ("friendlyName", json.JString false "My Resource");
                     ("status", json.JNumber "1");
                     ("since", json.JString false "2006-01-02T15:04:05Z")]))
    else None in
  server.ServeHTTP time.UnmarshalJSON_RFC3339 Get []
    (server.mkRequest "GET" "/123456789abcdef" ["application/json"])
  = [server.Write
       [server.JSONLine
          (json.JArray
             [json.JObject
                [("id", json.JString false "123456789ABCDEF");
                 ("friendlyName", json.JString false "My Resource");
                 ("status", json.JNumber "1");
                 ("since", json.JString false "2006-01-02T15:04:05Z")]])]].
Proof.
  exact (ServeHTTP_serves_stored time.UnmarshalJSON_RFC3339 _ []
           ["application/json"] example_resource _
           rfc3339.UnmarshalJSON_MarshalJSON
           ltac:(reflexivity) ltac:(reflexivity) eq_refl eq_refl).
Defined.

(** ** One line per Resource *)

Lemma inline_no_LF s : all_bytes is_inline s = true -> no_LF s = true.
Proof.
  apply all_bytes_impl. intros c. unfold is_inline. lia.
Qed.

(** The numeral of [Status.String] is one digit, read back as the status
    forced into range. *)
Lemma Status_String_numeral s :
  String.length (Status.String s) = 1%nat
  /\ strconv.ParseUint (Status.String s) 10 64 = (Status.forceRange s, None).
Proof.
  unfold Status.String. split.
  - destruct (Status_String_values s) as [H|[H|H]]; unfold Status.String in H;
      rewrite H; reflexivity.
  - apply ParseUint_FormatUint.
    unfold Status.forceRange, Status.inRange, Status.Occupied, Status.Free.
    destruct (N.leb_spec s 2); cbn [negb]; [|reflexivity].
    eapply N.le_lt_trans; [eassumption|reflexivity].
Qed.

Lemma no_LF_app s1 s2 : no_LF (s1 ++ s2) = no_LF s1 && no_LF s2.
Proof. apply all_bytes_app. Qed.

(** Everything [Resource.String] writes before the friendlyName is free of
    line feeds. *)
Lemma String_no_LF r :
  Resource.Id r < 2 ^ 64 ->
  no_LF (Resource.String r) = no_LF (Resource.FriendlyName r).
Proof.
  intros Hid. unfold Resource.String, Resource.Sprintf_resourceFmt.
  rewrite !no_LF_app.
  rewrite (inline_no_LF _ (Format_RFC3339_inline (Resource.Since r))).
  replace (no_LF (Status.String (Resource.Status r))) with true
    by (destruct (Status_String_values (Resource.Status r)) as [->|[->| ->]];
        reflexivity).
  rewrite (inline_no_LF (fmt.verb_016X (Resource.Id r)))
    by (eapply all_bytes_impl; [apply upper_hex_inline|];
        now apply verb_016X_upper_hex).
  reflexivity.
Qed.




(** X20. [Resource.String] is a single line whenever the friendlyName has no
    line feed: the name is the only field that can bring one. So is the text
    that [encode_text] writes for such a Resource, up to the line feed that
    ends it. *)
Theorem String_single_line (r : Resource.t) :
  Resource.Id r < 2 ^ 64 ->
  no_LF (Resource.FriendlyName r) = true ->
  no_LF (Resource.String r) = true.
Proof.
  intros Hid Hname.
  unfold Resource.String, Resource.Sprintf_resourceFmt, no_LF.
  repeat (rewrite all_bytes_app; apply andb_true_intro; split); try reflexivity.
  - apply inline_no_LF, Format_RFC3339_inline.
  - destruct (Status_String_values (Resource.Status r)) as [->|[->| ->]]; reflexivity.
  - apply inline_no_LF. eapply all_bytes_impl; [apply upper_hex_inline|].
    now apply verb_016X_upper_hex.
  - exact Hname.
Qed.

(** X20 at the Resource of the specification's example. *)
Lemma String_single_line_witness :
  no_LF "2006-01-02T15:04:05Z 1 0123456789ABCDEF My Resource" = true.
Proof.
  exact (String_single_line example_resource ltac:(reflexivity) ltac:(reflexivity)).
Defined.

(** X21. A successful [UnmarshalJSON] overwrites the four fields: its result
    is the same on every receiver. *)
Theorem UnmarshalJSON_ok_receiver
  (tu : time.Time -> json.value -> time.Time * option error)
  (r1 r2 r' : Resource.t) (raw : json.value) :
  Resource.UnmarshalJSON tu r1 raw = (r', None) ->
  Resource.UnmarshalJSON tu r2 raw = (r', None).
Proof.
  unfold Resource.UnmarshalJSON.
  destruct (Resource.json_Unmarshal tu raw) as [tmp|e]; [|discriminate].
  cbv zeta. destruct (strconv.ParseUint _ 16 64) as [id [e|]]; [discriminate|].
  cbn [Resource.FriendlyName Resource.Status Resource.Since]. trivial.
Qed.

(** X21 at two receivers of an input that names the id only. *)
Lemma UnmarshalJSON_ok_receiver_witness :
  Resource.UnmarshalJSON time.UnmarshalJSON_RFC3339 Resource.zero
    (json.JObject [("id", json.JString false "1F")])
  = (Resource.mk 31 "" Status.Free time.zero, None).
Proof.
  exact (UnmarshalJSON_ok_receiver time.UnmarshalJSON_RFC3339 example_resource
           Resource.zero (Resource.mk 31 "" Status.Free time.zero)
           (json.JObject [("id", json.JString false "1F")]) eq_refl).
Defined.

(** ** Empty segments of a path *)

Lemma idsFromPath_loop_strip p1 p2 l : forall ids,
  strip_path (server.idsFromPath_loop p1 l ids)
  = strip_path (server.idsFromPath_loop p2 l ids).
Proof.
  induction l as [|s l IH]; intros ids; cbn [server.idsFromPath_loop].
  - reflexivity.
  - destruct (String.eqb s ""); [apply IH|].
    destruct (strconv.ParseUint s 16 64) as [id [e|]]; [reflexivity|apply IH].
Qed.

(** X22. [idsFromPath] skips empty segments: a slash before or after a path
    changes neither the ids nor the error of [ParseUint] that is reported
    (only the path quoted in the message differs); the empty path and the
    path [/] have no id and no error. *)
Theorem idsFromPath_slashes (p : string) :
  strip_path (server.idsFromPath (String "/" p)) = strip_path (server.idsFromPath p)
  /\ strip_path (server.idsFromPath (p ++ "/")) = strip_path (server.idsFromPath p)
  /\ server.idsFromPath "" = ([], None)
  /\ server.idsFromPath "/" = ([], None).
Proof.
  unfold server.idsFromPath. repeat split.
  - cbn [strings.Split]. change (Ascii.eqb "/" "/") with true. cbv iota.
    cbn [server.idsFromPath_loop String.eqb]. apply idsFromPath_loop_strip.
  - rewrite Split_app, idsFromPath_loop_app.
    pose proof (idsFromPath_loop_strip (p ++ "/") p (strings.Split p "/") []) as H.
    destruct (server.idsFromPath_loop (p ++ "/") (strings.Split p "/") [])
      as [ids [e|]]; rewrite <- H; reflexivity.
Qed.
